(** * dnppy.raster and dnppy.core.create_outname: a shallow embedding

    The development follows [src/dnppy_install/raster/raster.py] and
    [src/dnppy_install/core/create_outname.py].

    Conventions of the embedding
    - Python floats (cell values, coordinates, NoData values) are exact
      rationals [Q]; a NaN cell is [None] in an [option Q].
    - A 2-D numpy array is a row-major [list (list Q)].
    - A Python exception is a value of [exn]; a call that may raise
      returns a [result].
    - Files on disk, the arcpy environment and the sequence of arcpy tool
      calls are threaded explicitly through a [world].
    - arcpy tools and [os.path] are collaborators that are not part of the
      repository: they are the fields of the class [Toolkit]. *)

From Stdlib Require Import ZArith QArith Qround String Ascii List Bool Lia.
From stdpp Require Import base option list gmap strings.

Local Open Scope string_scope.
Local Open Scope list_scope.

(** ** Python values, exceptions and results *)

Inductive exn :=
| AttributeError      (* attribute lookup on a value that lacks it *)
| UnboundLocalError   (* local variable referenced before assignment *)
| ValueError          (* numpy: could not broadcast input array *)
| ZeroDivisionError
| IndexError          (* list index out of range *)
| ExecuteError        (* an arcpy geoprocessing tool failed *)
| ResolutionException (* raise Exception("images are NOT the same resolution! ...") *)
| NameError           (* a global name that the module never binds *)
| TypeError           (* numpy: data type not understood *).

Inductive result (A : Type) :=
| Ok (a : A)
| Raise (e : exn).
Arguments Ok {A} a.
Arguments Raise {A} e.

Definition rbind {A B} (r : result A) (k : A → result B) : result B :=
  match r with
  | Ok a => k a
  | Raise e => Raise e
  end.

(** An argument documented as "a string, or False" ([outdir], [ext]). *)
Inductive str_or_false :=
| PyFalse
| PyStr (s : string).

(** Python truthiness: [False] and the empty string are falsy. *)
Definition truthy (v : str_or_false) : bool :=
  match v with
  | PyFalse => false
  | PyStr EmptyString => false
  | PyStr _ => true
  end.

(** ** String helpers (Python [str] methods used by the source) *)

Module PyStr.

Definition dot : ascii := "."%char.

(** [s.replace(".", "")] *)
Fixpoint remove_dots (s : string) : string :=
  match s with
  | EmptyString => EmptyString
  | String c s' =>
      if Ascii.eqb c dot then remove_dots s' else String c (remove_dots s')
  end.

(** [s.split('.')]: always at least one piece. *)
Fixpoint split_dot (s : string) : list string :=
  match s with
  | EmptyString => [EmptyString]
  | String c s' =>
      if Ascii.eqb c dot then EmptyString :: split_dot s'
      else match split_dot s' with
           | [] => [String c EmptyString]
           | piece :: rest => String c piece :: rest
           end
  end.

(** [sep.join(l)] *)
Fixpoint join (sep : string) (l : list string) : string :=
  match l with
  | [] => EmptyString
  | [x] => x
  | x :: rest => x +:+ sep +:+ join sep rest
  end.

(** ["." in s] *)
Fixpoint has_dot (s : string) : bool :=
  match s with
  | EmptyString => false
  | String c s' => Ascii.eqb c dot || has_dot s'
  end.

(** [l[:-1]] *)
Definition but_last {A} (l : list A) : list A := removelast l.

(** [l[-1:]] *)
Definition last_slice {A} (l : list A) : list A :=
  match rev l with
  | [] => []
  | x :: _ => [x]
  end.

(** [s[-3:]] *)
Definition last3 (s : string) : string :=
  substring (String.length s - 3) 3 s.

(** [s[:-4]] *)
Definition drop_last4 (s : string) : string :=
  substring 0 (String.length s - 4) s.

Definition upper_ascii (c : ascii) : ascii :=
  let n := nat_of_ascii c in
  if (97 <=? n)%nat && (n <=? 122)%nat then ascii_of_nat (n - 32) else c.

Definition lower_ascii (c : ascii) : ascii :=
  let n := nat_of_ascii c in
  if (65 <=? n)%nat && (n <=? 90)%nat then ascii_of_nat (n + 32) else c.

Fixpoint map_string (f : ascii → ascii) (s : string) : string :=
  match s with
  | EmptyString => EmptyString
  | String c s' => String (f c) (map_string f s')
  end.

(** [s.upper()] and [s.lower()] on ASCII text. *)
Definition upper := map_string upper_ascii.
Definition lower := map_string lower_ascii.

End PyStr.

(** ** [is_rast] (raster.py, lines 278-292) *)

Definition rast_types : list string :=
  ["bil";"bip";"bmp";"bsq";"dat";"gif";"img";"jpg";"jp2";"png";"tif";
   "BIL";"BIP";"BMP";"BSQ";"DAT";"GIF";"IMG";"JPG";"JP2";"PNG";"TIF"].

(** The loop [for rast_type in rast_types: if ext == rast_type: return True]. *)
Fixpoint ext_in (ext : string) (types : list string) : bool :=
  match types with
  | [] => false
  | rast_type :: rest => if String.eqb ext rast_type then true else ext_in ext rest
  end.

Definition is_rast (isfile : string → bool) (filename : string) : bool :=
  let ext := PyStr.last3 filename in
  if isfile filename then ext_in ext rast_types else false.

(** The eleven extensions the specification lists. *)
Definition raster_extensions : list string :=
  ["bil";"bip";"bmp";"bsq";"dat";"gif";"img";"jpg";"jp2";"png";"tif"].

(** The specification's reading of [is_rast]: an existing file whose last
    three characters match one of the extensions, ignoring case. *)
Definition is_rast_case_insensitive (isfile : string → bool) (filename : string) : bool :=
  isfile filename && ext_in (PyStr.lower (PyStr.last3 filename)) raster_extensions.

(** ** [create_outname] (core/create_outname.py) *)

Section CreateOutname.

(** [os.path.isfile], [os.path.split] and [os.path.join]. *)
Variable isfile : string → bool.
Variable path_split : string → string * string.
Variable path_join : string → string → string.

(** [ext.replace(".", "")]: only a string has the method. *)
Definition ext_replace (ext : str_or_false) : result string :=
  match ext with
  | PyStr s => Ok (PyStr.remove_dots s)
  | PyFalse => Raise AttributeError
  end.

Definition create_outname (outdir : str_or_false) (inname suffix : string)
    (ext : str_or_false) : result string :=
  rbind (ext_replace ext) (fun ext =>
  (* isolate the filename from its directory and extension;
     [head] is bound on the first branch only *)
  let '(head, tail, noext) :=
    if isfile inname then
      let '(head, tail) := path_split inname in
      (Some head, tail, PyStr.join "." (PyStr.but_last (PyStr.split_dot tail)))
    else
      let tail := inname in
      if PyStr.has_dot inname
      then (None, tail, PyStr.join "." (PyStr.but_last (PyStr.split_dot tail)))
      else (None, tail, inname) in
  (* create the suffix *)
  let suffix :=
    if truthy (PyStr ext)
    then "_" +:+ suffix +:+ "." +:+ ext
    else "_" +:+ suffix +:+ "." +:+
           PyStr.join "" (PyStr.last_slice (PyStr.split_dot tail)) in
  let beside_input :=
    match head with
    | Some head => Ok (path_join head (noext +:+ suffix))
    | None => Raise UnboundLocalError
    end in
  match outdir with
  | PyStr d => if truthy outdir then Ok (path_join d (noext +:+ suffix))
               else beside_input
  | PyFalse => beside_input
  end).

End CreateOutname.

(** ** Numbers *)

(** [int(round(q, 0))] in Python 2: to the nearest integer, halves away
    from zero. *)
Definition py_round (q : Q) : Z :=
  if Qle_bool 0 q then Qfloor (q + (1 # 2)) else (- Qfloor (- q + (1 # 2)))%Z.

(** [round(q, 5)] *)
Definition round5 (q : Q) : Q :=
  (inject_Z (py_round (q * 100000)) / 100000)%Q.

Definition Qlt_bool (x y : Q) : bool := negb (Qle_bool y x).

(** [not v] for an argument that is [False] or a number: [False] and
    zero are falsy. *)
Definition py_not (v : option Q) : bool :=
  match v with
  | None => true
  | Some q => Qeq_bool q 0
  end.

(** ** numpy arrays *)

Abbreviation grid := (list (list Q)).

Definition nrows (g : grid) : nat := length g.
Definition ncols (g : grid) : nat :=
  match g with
  | [] => 0
  | row :: _ => length row
  end.

(** [numpy.zeros((ys, xs)) + v] *)
Definition zeros_plus (ys xs : nat) (v : Q) : grid :=
  replicate ys (replicate xs v).

(** [a[cond] = v] with a boolean mask computed cell by cell *)
Definition mask_set (cond : Q → bool) (v : Q) (a : grid) : grid :=
  map (map (fun x => if cond x then v else x)) a.

(** One bound of the slice [start:stop] on an axis of length [n]: a
    negative index counts from the end, then the bound is clamped. *)
Definition slice_bound (i : Z) (n : nat) : Z :=
  if (i <? 0)%Z then Z.max 0 (i + Z.of_nat n) else Z.min i (Z.of_nat n).

(** First index and length of the slice [start:stop]. *)
Definition slice_indices (start stop : Z) (n : nat) : nat * nat :=
  let a := slice_bound start n in
  let b := slice_bound stop n in
  (Z.to_nat a, Z.to_nat (b - a)).

(** An axis of length [m] broadcasts to length [l] when they agree or
    [m] is one. *)
Definition broadcasts (m l : nat) : bool := (m =? l)%nat || (m =? 1)%nat.

(** Cell [(i, j)] of [src] seen through broadcasting: an axis of length
    one is read at index 0.  [d] stands for a cell that does not exist. *)
Definition bcell {A} (d : A) (src : list (list A)) (i j : nat) : A :=
  let i := if (length src =? 1)%nat then 0%nat else i in
  let j := if (match src with [] => 0%nat | row :: _ => length row end =? 1)%nat
           then 0%nat else j in
  match src !! i with
  | Some row => default d (row !! j)
  | None => d
  end.

(** [a[r, c]], when the cell exists. *)
Definition cell {A} (a : list (list A)) (r c : nat) : option A :=
  match a !! r with
  | Some row => row !! c
  | None => None
  end.

(** An array of shape [(R, C)]. *)
Definition has_shape {A} (R C : nat) (a : list (list A)) : Prop :=
  length a = R ∧ Forall (fun row => length row = C) a.

(** The array of shape [(R, C)] whose cell [(i, j)] is [f i j]. *)
Definition tabulate {A} (R C : nat) (f : nat → nat → A) : list (list A) :=
  map (fun i => map (fun j => f i j) (seq 0 C)) (seq 0 R).

(** Cell [(r, c)] lies in the window that starts at [(ra, ca)] and spans
    [rl] rows and [cl] columns. *)
Definition in_window (ra rl ca cl r c : nat) : bool :=
  (ra <=? r)%nat && (r <? ra + rl)%nat && (ca <=? c)%nat && (c <? ca + cl)%nat.

(** [dst[r0:r1, c0:c1] = src]: raises ValueError when [src] does not
    broadcast to the shape of the slice. *)
Definition slice_assign (dst : grid) (r0 r1 c0 c1 : Z) (src : grid) : result grid :=
  let '(ra, rl) := slice_indices r0 r1 (nrows dst) in
  let '(ca, cl) := slice_indices c0 c1 (ncols dst) in
  if broadcasts (nrows src) rl && broadcasts (ncols src) cl then
    Ok (imap (fun r row =>
          imap (fun c v =>
            if in_window ra rl ca cl r c
            then bcell 0%Q src (r - ra) (c - ca)
            else v) row) dst)
  else Raise ValueError.

(** Length of an axis of [a + b]. *)
Definition broadcast_axis (m n : nat) : option nat :=
  if (m =? n)%nat then Some m
  else if (m =? 1)%nat then Some n
  else if (n =? 1)%nat then Some m
  else None.

(** [a + b] on two 2-D arrays. *)
Definition np_add (a b : grid) : result grid :=
  match broadcast_axis (nrows a) (nrows b), broadcast_axis (ncols a) (ncols b) with
  | Some R, Some C =>
      Ok (tabulate R C (fun i j => (bcell 0 a i j + bcell 0 b i j)%Q))
  | _, _ => Raise ValueError
  end.

(** ** The grid of [find_overlap] (raster.py, lines 358-367) *)

(** [(a >= NoData * 0.99999) & (a <= NoData * 1.00001)] *)
Definition in_nodata_band (NoData x : Q) : bool :=
  Qle_bool (NoData * (99999 # 100000)) x && Qle_bool x (NoData * (100001 # 100000)).

(** The specification's "has data": the value lies outside the band. *)
Definition has_data (NoData x : Q) : bool := negb (in_nodata_band NoData x).

Definition overlap_Workmatrix (a : grid) (NoData_A : Q) (b : grid) (NoData_B : Q)
  : result grid :=
  let a := mask_set (in_nodata_band NoData_A) 1 a in
  let b := mask_set (in_nodata_band NoData_B) 1 b in
  rbind (np_add a b) (fun Workmatrix =>
  let Workmatrix := mask_set (fun x => Qlt_bool x 2) 0 Workmatrix in
  let Workmatrix := mask_set (fun x => Qle_bool 2 x) 1 Workmatrix in
  Ok Workmatrix).

(** ** Rasters on disk and the arcpy environment *)

(** The metadata object built by [to_numpy]. *)
Record metadata := {
  Xsize : nat;
  Ysize : nat;
  cellWidth : Q;
  cellHeight : Q;
  Xmin : Q;
  Ymin : Q;
  projection : string;     (* [projection.projectionName] *)
  NoData_Value : Q
}.

Definition Xmax (m : metadata) : Q := (Xmin m + inject_Z (Z.of_nat (Xsize m)) * cellWidth m)%Q.
Definition Ymax (m : metadata) : Q := (Ymin m + inject_Z (Z.of_nat (Ysize m)) * cellHeight m)%Q.

(** [meta.rectangle], kept as four numbers instead of their text. *)
Definition rectangle (m : metadata) : Q * Q * Q * Q := (Xmin m, Ymin m, Xmax m, Ymax m).

(** A raster file as arcpy describes it. *)
Record raster_file := {
  rf_cells : grid;
  rf_cellWidth : Q;
  rf_cellHeight : Q;
  rf_Xmin : Q;
  rf_Ymin : Q;
  rf_projection : string;
  rf_noData : Q
}.

(** A geoprocessing call made through arcpy. *)
Inductive arcpy_call :=
| Clip_call (in_raster out_raster : string) (maintain_extent : bool)
| Project_call (in_raster out_raster : string)
| Resample_call (in_raster out_raster : string)
| Save_call (out_raster : string).

Record world := {
  files : gmap string raster_file;   (* raster files by path *)
  snapRaster : option string;        (* [arcpy.env.snapRaster] *)
  calls : list arcpy_call            (* arcpy calls made so far, oldest first *)
}.

Definition isfile (w : world) (path : string) : bool :=
  match files w !! path with
  | Some _ => true
  | None => false
  end.

Definition write_file (path : string) (f : raster_file) (w : world) : world :=
  {| files := <[path := f]> (files w); snapRaster := snapRaster w; calls := calls w |}.

Definition set_snapRaster (path : string) (w : world) : world :=
  {| files := files w; snapRaster := Some path; calls := calls w |}.

Definition log_call (c : arcpy_call) (w : world) : world :=
  {| files := files w; snapRaster := snapRaster w; calls := calls w ++ [c] |}.

(** Collaborators outside the repository: [os.path], [shutil.rmtree]'s
    notion of "inside a directory", the arcpy tools and numpy's [astype].
    A tool reads the world and returns the raster it writes, or [None]
    when it fails.  [astype t] is the conversion numpy applies to every
    cell for the type name [t], or [None] for a name numpy does not
    understand. *)
Class Toolkit := {
  path_split : string → string * string;
  path_join : string → string → string;
  in_tree : string → string → bool;
  Clip_management : world → string → Q * Q * Q * Q → bool → option raster_file;
  core_project : world → string → string → str_or_false → option raster_file;
  Resample_management : world → string → Q * Q → string → option raster_file;
  astype : string → option (Q → Q)
}.

(** Stateful computations: the world survives an exception. *)
Definition M (A : Type) : Type := world → result A * world.

Definition ret {A} (a : A) : M A := fun w => (Ok a, w).
Definition raise {A} (e : exn) : M A := fun w => (Raise e, w).
Definition bind {A B} (m : M A) (k : A → M B) : M B :=
  fun w =>
    match m w with
    | (Ok a, w') => k a w'
    | (Raise e, w') => (Raise e, w')
    end.
Definition lift {A} (r : result A) : M A := fun w => (r, w).
Definition modify (f : world → world) : M unit := fun w => (Ok tt, f w).

Declare Scope py_scope.
Delimit Scope py_scope with py.
Notation "'do' p <- m ;; k" := (bind m (fun p => k))
  (at level 10, p pattern, m at level 99, k at level 200) : py_scope.
Notation "'run' m ;; k" := (bind m (fun _ => k))
  (at level 10, m at level 99, k at level 200) : py_scope.

Section Raster.

Context `{Toolkit}.
Local Open Scope py_scope.

(** [to_numpy] (lines 48-121): when [is_rast] fails the function only
    prints, and [return numpy_rast, meta] meets unbound locals. *)
Definition to_numpy (raster : string) : M (grid * metadata) :=
  fun w =>
    if is_rast (isfile w) raster then
      match files w !! raster with
      | Some f =>
          (Ok (rf_cells f,
               {| Xsize := ncols (rf_cells f); Ysize := nrows (rf_cells f);
                  cellWidth := rf_cellWidth f; cellHeight := rf_cellHeight f;
                  Xmin := rf_Xmin f; Ymin := rf_Ymin f;
                  projection := rf_projection f;
                  NoData_Value := rf_noData f |}), w)
      | None => (Raise UnboundLocalError, w)
      end
    else (Raise UnboundLocalError, w).

(** Lines 149-150: [if num_type: numpy_rast = numpy_rast.astype(num_type)] *)
Definition cast_array (num_type : str_or_false) (numpy_rast : grid) : result grid :=
  match num_type with
  | PyStr t =>
      if truthy num_type then
        match astype t with
        | Some cast => Ok (map (map cast) numpy_rast)
        | None => Raise TypeError
        end
      else Ok numpy_rast
  | PyFalse => Ok numpy_rast
  end.

(** [from_numpy] (lines 125-179).  The array is converted to [num_type]
    when one is given; the raster is saved with its lower-left corner at
    [(Xmin, Ymin)], then its projection and NoData value are set. *)
Definition from_numpy (numpy_rast : grid) (Metadata : metadata) (outpath : string)
    (NoData_Value' : option Q) (num_type : str_or_false) : M unit :=
  do numpy_rast <- lift (cast_array num_type numpy_rast) ;;
  let NoData_Value' :=
    if py_not NoData_Value' then NoData_Value Metadata
    else default (NoData_Value Metadata) NoData_Value' in
  modify (fun w =>
    log_call (Save_call outpath)
      (write_file outpath
         {| rf_cells := numpy_rast;
            rf_cellWidth := cellWidth Metadata; rf_cellHeight := cellHeight Metadata;
            rf_Xmin := Xmin Metadata; rf_Ymin := Ymin Metadata;
            rf_projection := projection Metadata;
            rf_noData := NoData_Value' |} w)).

(** [shutil.rmtree(d)] *)
Definition rmtree (d : string) : M unit :=
  modify (fun w =>
    {| files := filter (fun kv => in_tree d kv.1 = false) (files w);
       snapRaster := snapRaster w; calls := calls w |}).

(** One call of [arcpy.Clip_management] writing [out_raster]. *)
Definition clip (in_raster : string) (rect : Q * Q * Q * Q) (out_raster : string)
    (maintain_extent : bool) : M unit :=
  fun w =>
    let w := log_call (Clip_call in_raster out_raster maintain_extent) w in
    match Clip_management w in_raster rect maintain_extent with
    | Some f => (Ok tt, write_file out_raster f w)
    | None => (Raise ExecuteError, w)
    end.

(** [try: m except: handler] *)
Definition try_except {A} (m handler : M A) : M A :=
  fun w =>
    match m w with
    | (Ok a, w') => (Ok a, w')
    | (Raise _, w') => handler w'
    end.

(** Lines 520-521 and 530-531. *)
Definition offsets (snap_meta meta : metadata) : result (Z * Z) :=
  if Qeq_bool (cellWidth meta) 0 then Raise ZeroDivisionError else
  let xoffset := py_round ((Xmin meta - Xmin snap_meta) / cellWidth meta) in
  if Qeq_bool (cellHeight meta) 0 then Raise ZeroDivisionError else
  let yoffset := py_round ((Ymin meta - Ymin snap_meta) / cellHeight meta) in
  Ok (xoffset, yoffset).

(** Lines 541-554: the NoData-filled buffer and the slice assignment. *)
Definition paste (snap_meta meta : metadata) (raster : grid) (xoffset yoffset : Z)
  : result grid :=
  let sY := Z.of_nat (Ysize snap_meta) in
  let sX := Z.of_nat (Xsize snap_meta) in
  let mY := Z.of_nat (Ysize meta) in
  let mX := Z.of_nat (Xsize meta) in
  let newraster := zeros_plus (Ysize snap_meta) (Xsize snap_meta) (NoData_Value meta) in
  slice_assign newraster
    (sY - mY - yoffset) (sY - yoffset)
    (sX - mX - xoffset) (sX - xoffset) raster.

(** [meta.Xmin = snap_meta.Xmin; meta.Ymin = snap_meta.Ymin] *)
Definition move_origin (snap_meta meta : metadata) : metadata :=
  {| Xsize := Xsize meta; Ysize := Ysize meta;
     cellWidth := cellWidth meta; cellHeight := cellHeight meta;
     Xmin := Xmin snap_meta; Ymin := Ymin snap_meta;
     projection := projection meta; NoData_Value := NoData_Value meta |}.

Definition exceeds (meta snap_meta : metadata) : bool :=
  (Xsize snap_meta <? Xsize meta)%nat || (Ysize snap_meta <? Ysize meta)%nat.

(** Lines 512-521: clip to the reference's rectangle, load the clipped
    raster, find the offsets. *)
Definition first_clip (snap_meta : metadata) (rastname tempout : string)
  : M (grid * metadata * Z * Z) :=
  run try_except (clip rastname (rectangle snap_meta) tempout true)
                 (clip rastname (rectangle snap_meta) tempout false) ;;
  do (raster, meta) <- to_numpy tempout ;;
  do (xoffset, yoffset) <- lift (offsets snap_meta meta) ;;
  ret (raster, meta, xoffset, yoffset).

(** Lines 526-531: clip a second time, reload and recalculate offsets. *)
Definition second_clip (snap_meta : metadata) (tempout : string)
  : M (grid * metadata * Z * Z) :=
  let tempout2 := PyStr.drop_last4 tempout +:+ "2.tif" in
  run clip tempout (rectangle snap_meta) tempout2 false ;;
  do (raster, meta) <- to_numpy tempout2 ;;
  do (xoffset, yoffset) <- lift (offsets snap_meta meta) ;;
  ret (raster, meta, xoffset, yoffset).

(** Lines 512-531: the clipped raster and its offsets, after the
    second clip when the first left the raster larger than the
    reference. *)
Definition load_clipped (snap_meta : metadata) (rastname tempout : string)
  : M (grid * metadata * Z * Z) :=
  do (raster, meta, xoffset, yoffset) <- first_clip snap_meta rastname tempout ;;
  if exceeds meta snap_meta
  then second_clip snap_meta tempout
  else ret (raster, meta, xoffset, yoffset).

(** Lines 533-559: plop the snapped raster into the new output raster,
    alter the metadata, save, and clean up. *)
Definition plop (snap_meta : metadata) (outname tempdir : string)
    (numtype : str_or_false) (NoData_Value' : option Q)
    (raster : grid) (meta : metadata) (xoffset yoffset : Z) : M (metadata * metadata) :=
  let meta := move_origin snap_meta meta in
  do newraster <- lift (paste snap_meta meta raster xoffset yoffset) ;;
  run from_numpy newraster meta outname NoData_Value' numtype ;;
  run rmtree tempdir ;;
  ret (snap_meta, meta).

(** [clip_and_snap] (lines 463-559). *)
Definition clip_and_snap (snap_raster rastname outname : string)
    (numtype : str_or_false) (NoData_Value' : option Q) : M (metadata * metadata) :=
  do (_, snap_meta) <- to_numpy snap_raster ;;
  do (_, meta) <- to_numpy rastname ;;
  let NoData_Value' :=
    if py_not NoData_Value' then Some (NoData_Value meta) else NoData_Value' in
  let numtype := if truthy numtype then numtype else PyStr "float32" in
  let tempdir := path_join (path_split outname).1 "temp" in
  (* set the snap raster environment in arcmap *)
  run modify (set_snapRaster snap_raster) ;;
  let tempout := path_join tempdir (path_split outname).2 in
  do (raster, meta, xoffset, yoffset) <- load_clipped snap_meta rastname tempout ;;
  plop snap_meta outname tempdir numtype NoData_Value' raster meta xoffset yoffset.

(** [find_overlap] (lines 329-374).  Line 346 calls [check_module], a
    name that raster.py never binds (the module imports [core] only):
    Python raises NameError there, before anything else is done.  The
    lines behind it are kept as they are written, with [raster.f] (the
    name [raster] is not bound either) read as the module's own [f]: the
    array allocated on lines 358-359 is replaced by [a + b] before it is
    read, and line 370 hands [from_numpy] six arguments, one more than it
    takes, so lines 371-372 could not be reached in any case. *)
Definition find_overlap (file_A : string) (NoData_A : Q) (file_B : string) (NoData_B : Q)
    (outpath : string) : M (metadata * metadata) :=
  (* import modules: [if check_module('numpy'): import numpy] *)
  run raise (A := unit) NameError ;;
  (* spatially match the rasters *)
  run clip_and_snap file_A file_B file_B PyFalse (Some NoData_B) ;;
  (* load the rasters as numpy arrays *)
  do (a, metaA) <- to_numpy file_A ;;
  do (b, metaB) <- to_numpy file_B ;;
  do Workmatrix <- lift (overlap_Workmatrix a NoData_A b NoData_B) ;;
  (* saving the overlap file *)
  run raise (A := unit) TypeError ;;
  ret (metaA, metaB).

(** The condition of lines 435-436; [and] evaluates its second operand
    only when the first holds. *)
Definition resolution_differs (snap_meta meta : metadata) : result bool :=
  if Qeq_bool (cellHeight meta) 0 then Raise ZeroDivisionError else
  if negb (Qeq_bool (round5 (cellHeight snap_meta / cellHeight meta)) 1) then
    if Qeq_bool (cellWidth meta) 0 then Raise ZeroDivisionError else
    Ok (negb (Qeq_bool (round5 (cellWidth snap_meta / cellWidth meta)) 1))
  else Ok false.

(** The specification's condition: the cell sizes differ in either
    dimension. *)
Definition cell_size_differs (snap_meta meta : metadata) : bool :=
  negb (Qeq_bool (round5 (cellHeight snap_meta / cellHeight meta)) 1)
  || negb (Qeq_bool (round5 (cellWidth snap_meta / cellWidth meta)) 1).

Definition project (rastname snap_raster tempname : string) (resamp_type : str_or_false)
  : M unit :=
  fun w =>
    let w := log_call (Project_call rastname tempname) w in
    match core_project w rastname snap_raster resamp_type with
    | Some f => (Ok tt, write_file tempname f w)
    | None => (Raise ExecuteError, w)
    end.

Definition resample (rastname tempname : string) (cell_size : Q * Q) (resamp_type : string)
  : M unit :=
  fun w =>
    let w := log_call (Resample_call rastname tempname) w in
    match Resample_management w rastname cell_size resamp_type with
    | Some f => (Ok tt, write_file tempname f w)
    | None => (Raise ExecuteError, w)
    end.

(** [enf_rastlist] (lines 897-914) on a list of paths. *)
Definition enf_rastlist (filelist : list string) : M (list string) :=
  fun w =>
    (Ok (List.filter (fun filename => isfile w filename && is_rast (isfile w) filename)
           filelist), w).

(** The body of the loop of [spatially_match] (lines 424-457); it
    returns the new value of [usetemp]. *)
Definition match_one (snap_raster : string) (snap_meta : metadata)
    (outdir tempdir : string) (numtype : str_or_false) (NoData_Value' : option Q)
    (resamp_type : str_or_false) (usetemp : bool) (rastname : string) : M bool :=
  do (_, meta) <- to_numpy rastname ;;
  let '(head, tail) := path_split rastname in
  let tempname := path_join tempdir tail in
  do usetemp <-
    (if negb (String.eqb (projection snap_meta) (projection meta)) then
       run project rastname snap_raster tempname resamp_type ;;
       ret true
     else ret usetemp) ;;
  do differs <- lift (resolution_differs snap_meta meta) ;;
  do usetemp <-
    (if differs then
       match resamp_type with
       | PyStr r =>
           if truthy resamp_type then
             run resample rastname tempname (cellHeight snap_meta, cellWidth snap_meta) r ;;
             ret true
           else raise ResolutionException
       | PyFalse => raise ResolutionException
       end
     else ret usetemp) ;;
  (* define an output name: [core.create_outname(outdir, rastname, 'matched')] *)
  do outname <-
    (fun w => (create_outname (isfile w) path_split path_join
                 (PyStr outdir) rastname "matched" PyFalse, w)) ;;
  run (if usetemp
       then clip_and_snap snap_raster tempname outname numtype NoData_Value'
       else clip_and_snap snap_raster rastname outname numtype NoData_Value') ;;
  ret usetemp.

Fixpoint match_all (snap_raster : string) (snap_meta : metadata)
    (outdir tempdir : string) (numtype : str_or_false) (NoData_Value' : option Q)
    (resamp_type : str_or_false) (usetemp : bool) (rasterlist : list string) : M unit :=
  match rasterlist with
  | [] => ret tt
  | rastname :: rest =>
      do usetemp <- match_one snap_raster snap_meta outdir tempdir numtype
                      NoData_Value' resamp_type usetemp rastname ;;
      match_all snap_raster snap_meta outdir tempdir numtype NoData_Value'
        resamp_type usetemp rest
  end.

(** [spatially_match] (lines 378-460). *)
Definition spatially_match (snap_raster : string) (rasterlist : list string)
    (outdir : string) (numtype : str_or_false) (NoData_Value' : option Q)
    (resamp_type : str_or_false) : M unit :=
  let tempdir := path_join outdir "temp" in
  do rasterlist <- enf_rastlist rasterlist ;;
  let usetemp := false in
  run modify (set_snapRaster snap_raster) ;;
  do (_, snap_meta) <- to_numpy snap_raster ;;
  run match_all snap_raster snap_meta outdir tempdir numtype NoData_Value'
        resamp_type usetemp rasterlist ;;
  rmtree tempdir.

End Raster.

(** ** The statistics of [many_stats] (raster.py, lines 207-271) *)

(** A float array that may hold NaN ([None]). *)
Abbreviation nan_grid := (list (list (option Q))).

(** [a[cond] = nan]; a comparison with NaN is false. *)
Definition set_nan (cond : Q → bool) (a : nan_grid) : nan_grid :=
  map (map (fun x => match x with
                     | Some v => if cond v then None else Some v
                     | None => None
                     end)) a.

(** Lines 228-236 for one raster.  The first raster's NoData value was
    replaced by the text ['nan'] on line 212, which no raster's numeric
    NoData value equals, so the test of line 229 always passes. *)
Definition mask_raster (low_thresh high_thresh : option Q) (new_rast : grid)
    (NoData : Q) : nan_grid :=
  let new_rast := map (map Some) new_rast in
  let new_rast := set_nan (fun v => Qeq_bool v NoData) new_rast in
  let new_rast :=
    match low_thresh with
    | Some low => set_nan (fun v => Qlt_bool v low) new_rast
    | None => new_rast
    end in
  match high_thresh with
  | Some high => set_nan (fun v => Qlt_bool high v) new_rast
  | None => new_rast
  end.

(** [rast_3d[:, :, i] = new_rast] for an [rast_3d] of shape [(xs, ys, zs)]:
    the layer, or ValueError when the shapes do not fit. *)
Definition set_layer (xs ys : nat) (new_rast : nan_grid) : result nan_grid :=
  if broadcasts (length new_rast) xs
     && broadcasts (match new_rast with [] => 0%nat | row :: _ => length row end) ys
  then Ok (tabulate xs ys (bcell None new_rast))
  else Raise ValueError.

(** The loop of lines 218-238: the layers of [rast_3d], in order. *)
Fixpoint fill_rast_3d (xs ys : nat) (low_thresh high_thresh : option Q)
    (rasters : list (grid * Q)) : result (list nan_grid) :=
  match rasters with
  | [] => Ok []
  | (new_rast, NoData) :: rest =>
      rbind (set_layer xs ys (mask_raster low_thresh high_thresh new_rast NoData))
        (fun layer =>
      rbind (fill_rast_3d xs ys low_thresh high_thresh rest) (fun layers =>
      Ok (layer :: layers)))
  end.

(** The values of one pixel along the third axis. *)
Definition pixel (rast_3d : list nan_grid) (r c : nat) : list (option Q) :=
  map (fun layer => bcell None layer r c) rast_3d.

Definition Qsum (l : list Q) : Q := fold_right Qplus 0%Q l.

(** [numpy.mean] of a masked vector: the mean of the unmasked values, and
    masked ([None]) when there is none. *)
Definition masked_mean (vals : list (option Q)) : option Q :=
  let valid := omap id vals in
  match valid with
  | [] => None
  | _ => Some (Qsum valid / inject_Z (Z.of_nat (length valid)))%Q
  end.

(** [numpy.sum(mask)] along the third axis *)
Definition masked_count (vals : list (option Q)) : nat :=
  length (List.filter (fun x => match x with None => true | Some _ => false end) vals).

Record stats := {
  avg_rast : list (list (option Q));
  num_rast : list (list Z)
}.

(** The arrays [avg_rast] (line 244) and [num_rast] (line 264) that
    [many_stats] computes, from the arrays and NoData values [to_numpy]
    returns for the rasters of the list.  The standard deviation, the
    figures and the saving of the arrays are left out. *)
Definition many_stats (rasters : list (grid * Q)) (low_thresh high_thresh : option Q)
  : result stats :=
  match rasters with
  | [] => Raise IndexError
  | (temp_rast, _) :: _ =>
      let xs := nrows temp_rast in
      let ys := ncols temp_rast in
      let zs := length rasters in
      rbind (fill_rast_3d xs ys low_thresh high_thresh rasters) (fun rast_3d =>
      Ok {| avg_rast := tabulate xs ys (fun r c => masked_mean (pixel rast_3d r c));
            num_rast := tabulate xs ys (fun r c =>
                          (Z.of_nat zs - Z.of_nat (masked_count (pixel rast_3d r c)))%Z) |})
  end.




(** ** A small concrete toolkit for the examples

    Paths are joined with ["/"]; clipping hands back the input raster as
    it is (what a clip does to a raster that lies inside the rectangle);
    projecting and resampling are not available; the number types are
    those the docstring of [from_numpy] names. *)

Module Sample.

Fixpoint has_slash (s : string) : bool :=
  match s with
  | EmptyString => false
  | String c s' => Ascii.eqb c "/"%char || has_slash s'
  end.

(** Directory and file name around the last ["/"]. *)
Fixpoint split_last_slash (s : string) : string * string :=
  match s with
  | EmptyString => (EmptyString, EmptyString)
  | String c s' =>
      if has_slash s' then
        let '(head, tail) := split_last_slash s' in (String c head, tail)
      else if Ascii.eqb c "/"%char then (EmptyString, s')
      else (EmptyString, String c s')
  end.

(** Truncation toward zero. *)
Definition truncate (x : Q) : Z := Z.quot (Qnum x) (Z.pos (Qden x)).

(** A float type keeps the (exact) value; ['int32'] and ['uint8'] cut the
    fraction off (cells are taken to fit 32 bits), ['uint8'] keeping the
    low eight bits. *)
Definition numpy_astype (t : string) : option (Q → Q) :=
  if String.eqb t "float32" || String.eqb t "float64" then Some (fun x => x)
  else if String.eqb t "int32" then Some (fun x => inject_Z (truncate x))
  else if String.eqb t "uint8" then Some (fun x => inject_Z (truncate x mod 256))
  else None.

#[global] Instance toolkit : Toolkit := {|
  path_split := split_last_slash;
  path_join := fun a b => a +:+ "/" +:+ b;
  in_tree := fun d p => String.prefix (d +:+ "/") p;
  Clip_management := fun w in_raster _ _ => files w !! in_raster;
  core_project := fun _ _ _ _ => None;
  Resample_management := fun _ _ _ _ => None;
  astype := numpy_astype
|}.

Definition raster (cells : grid) (cell_w cell_h x_min y_min NoData : Q) : raster_file :=
  {| rf_cells := cells; rf_cellWidth := cell_w; rf_cellHeight := cell_h;
     rf_Xmin := x_min; rf_Ymin := y_min; rf_projection := "UTM"; rf_noData := NoData |}.

Definition disk (l : list (string * raster_file)) : world :=
  {| files := list_to_map l; snapRaster := None; calls := [] |}.

End Sample.

(** ** [identify] (raster.py, lines 851-894) *)

(** [name[0:k]] *)
Definition py_prefix (k : nat) (name : string) : string := substring 0 k name.

(** [any(x == s for x in l)] *)
Definition any_eq (s : string) (l : list string) : bool :=
  existsb (fun x => String.eqb x s) l.

Definition identify (name : string) : str_or_false :=
  if any_eq (py_prefix 2 name) ["LC"; "LO"; "LT"; "LE"; "LM"] then PyStr "Landsat"
  else if any_eq (py_prefix 3 name) ["MCD"; "MOD"; "MYD"] then PyStr "MODIS"
  else if any_eq (py_prefix 4 name)
            ["3A11"; "3A12"; "3A25"; "3A26"; "3B31"; "3A46"; "3B42"; "3B43"]
       then PyStr "TRMM"
  else if String.eqb (py_prefix 5 name) "CONUS" then PyStr "WELD_CONUS"
  else if String.eqb (py_prefix 6 name) "Alaska" then PyStr "WELD_AK"
  else if String.eqb (py_prefix 6 name) "AMSR_E" then PyStr "AMSR_E"
  else if String.eqb (py_prefix 3 name) "AST" then PyStr "ASTER"
  else if String.eqb (py_prefix 3 name) "AIR" then PyStr "AIRS"
  else PyFalse.

(** The files at [paths] are rasters of shape [(ys, xs)]. *)
Definition coincident_files (w : world) (ys xs : nat) (paths : list string) : Prop :=
  Forall (fun path => ext_in (PyStr.last3 path) rast_types = true
                      ∧ ∃ f, files w !! path = Some f ∧ has_shape ys xs (rf_cells f)) paths.

(** A call that clips or saves a raster. *)
Definition clips_or_saves (c : arcpy_call) : bool :=
  match c with
  | Clip_call _ _ _ | Save_call _ => true
  | Project_call _ _ | Resample_call _ _ => false
  end.

(** A computation that makes no clipping and no saving call. *)
Definition quiet {A} (m : M A) : Prop :=
  ∀ w r w', m w = (r, w') →
    ∃ l, calls w' = calls w ++ l ∧ forallb (fun c => negb (clips_or_saves c)) l = true.

(** A computation that always ends in an exception. *)
Definition always_raises {A} (m : M A) : Prop :=
  ∀ w r w', m w = (r, w') → ∃ e, r = Raise e.

(** The test of [identify] that the first two characters of a name leave
    open: 1 for Landsat, 2 for MODIS, 3 for TRMM, 4 for WELD_CONUS, 5 for
    WELD_AK, 6 for AMSR_E, 7 for ASTER, 8 for AIRS, 0 for none. *)
Definition test_of_key (key : string) : nat :=
  if any_eq key ["LC"; "LO"; "LT"; "LE"; "LM"] then 1
  else if any_eq key ["MC"; "MO"; "MY"] then 2
  else if any_eq key ["3A"; "3B"] then 3
  else if String.eqb key "CO" then 4
  else if String.eqb key "Al" then 5
  else if String.eqb key "AM" then 6
  else if String.eqb key "AS" then 7
  else if String.eqb key "AI" then 8
  else 0.

(** ** More of raster.py on the world *)

Section RasterBatch.

Context `{Toolkit}.
Local Open Scope py_scope.

(** [for x in l: body x] *)
Fixpoint for_each {A} (l : list A) (body : A → M unit) : M unit :=
  match l with
  | [] => ret tt
  | x :: rest => run body x ;; for_each rest body
  end.

(** [stack[z, :, :] = temp_image] for a stack whose layers have shape
    [(ys, xs)]: the layer, or ValueError when the image does not fit. *)
Definition set_image (ys xs : nat) (temp_image : grid) : result grid :=
  if broadcasts (nrows temp_image) ys && broadcasts (ncols temp_image) xs
  then Ok (tabulate ys xs (bcell 0%Q temp_image))
  else Raise ValueError.

(** The loop of [stack] from the second raster on: [layers] are the
    layers assigned so far, [meta] the metadata read last. *)
Fixpoint stack_rest (ys xs : nat) (raster_paths : list string) (layers : list grid)
    (meta : metadata) : M (list grid * metadata) :=
  match raster_paths with
  | [] => ret (layers, meta)
  | raster :: rest =>
      do (temp_image, temp_meta) <- to_numpy raster ;;
      do layer <- lift (set_image ys xs temp_image) ;;
      stack_rest ys xs rest (layers ++ [layer]) temp_meta
  end.

(** [stack] (lines 296-325).  The 3-D array is the list of its layers.
    With no path the loop body never runs and [return stack, meta] meets
    unbound locals. *)
Definition stack (raster_paths : list string) : M (list grid * metadata) :=
  match raster_paths with
  | [] => raise UnboundLocalError
  | raster :: rest =>
      do (temp_image, temp_meta) <- to_numpy raster ;;
      (* z == 0: stack = numpy.zeros((len(raster_paths), Ysize, Xsize)) *)
      do layer <- lift (set_image (Ysize temp_meta) (Xsize temp_meta) temp_image) ;;
      stack_rest (Ysize temp_meta) (Xsize temp_meta) rest [layer] temp_meta
  end.

(** The truth value of a boolean array, as [and] asks for it: that of its
    only element, False when it is empty, ValueError when it has more than
    one element. *)
Definition array_truth (b : list (list bool)) : result bool :=
  match concat b with
  | [] => Ok false
  | [x] => Ok x
  | _ => Raise ValueError
  end.

(** [raster <= below and raster >= above]: the left array when it is
    falsy, else the right one. *)
Definition below_and_above (raster : grid) (above below : Q) : result (Q → bool) :=
  rbind (array_truth (map (map (fun x => Qle_bool x below)) raster)) (fun left_true =>
  Ok (if left_true then (fun x => Qle_bool above x) else (fun x => Qle_bool x below))).

(** Lines 649-654 of [set_range_null]. *)
Definition range_to_null (above below : option Q) (NoData : Q) (raster : grid)
  : result grid :=
  if negb (py_not above) && negb (py_not below) then
    rbind (below_and_above raster (default 0%Q above) (default 0%Q below)) (fun mask =>
    Ok (mask_set mask NoData raster))
  else if negb (py_not above) then
    Ok (mask_set (fun x => Qle_bool (default 0%Q above) x) NoData raster)
  else if negb (py_not below) then
    Ok (mask_set (fun x => Qle_bool x (default 0%Q below)) NoData raster)
  else Ok raster.

(** [arcpy.SetRasterProperties_management(filename, ..., nodata = ...)],
    whatever it does. *)
Variable SetRasterProperties_management : string → Q → M unit.

(** [set_range_null] (lines 625-662).  Inside the function [raster] is
    the array [to_numpy] returned, so [raster.from_numpy] looks the
    attribute up on the array. *)
Definition set_range_null (filelist : list string) (above below : option Q) (NoData : Q)
  : M unit :=
  do filelist <- enf_rastlist filelist ;;
  for_each filelist (fun filename =>
    do (raster, meta) <- to_numpy filename ;;
    do raster <- lift (range_to_null above below NoData raster) ;;
    run raise (A := unit) AttributeError ;;
    SetRasterProperties_management filename NoData).

(** [os.path.exists(outdir)] and [os.makedirs(outdir)], whatever they do. *)
Variable path_exists : world → string → bool.
Variable makedirs : string → M unit.

(** Lines 575-577: ensure the output directory exists. *)
Definition ensure_outdir (outdir : str_or_false) : M unit :=
  fun w =>
    match outdir with
    | PyStr d => if truthy outdir && negb (path_exists w d) then makedirs d w else (Ok tt, w)
    | PyFalse => (Ok tt, w)
    end.

(** [arcpy.Clip_management(raster, "#", outname, shapefile,
    "ClippingGeometry")] and [sa.ExtractByMask(outname, shapefile)] with
    [out.save(outname)], whatever they do. *)
Variable Clip_to_geometry : string → string → string → M unit.
Variable ExtractByMask_save : string → string → M unit.

(** [clip_to_shape] (lines 562-591). *)
Definition clip_to_shape (rasterlist : list string) (shapefile : string)
    (outdir : str_or_false) : M unit :=
  do rasterlist <- enf_rastlist rasterlist ;;
  run ensure_outdir outdir ;;
  for_each rasterlist (fun raster =>
    (* create output filename with "c" suffix *)
    do outname <-
      (fun w => (create_outname (isfile w) path_split path_join outdir raster "c" PyFalse,
                 w)) ;;
    run Clip_to_geometry raster outname shapefile ;;
    ExtractByMask_save outname shapefile).

End RasterBatch.

(** ** [grab_info] (raster.py, lines 737-800): the attributes read off the name *)

(** [s.split(sep)] for a separator of one character: always at least one
    piece. *)
Fixpoint split_on (sep : ascii) (s : string) : list string :=
  match s with
  | EmptyString => [EmptyString]
  | String c s' =>
      if Ascii.eqb c sep then EmptyString :: split_on sep s'
      else match split_on sep s' with
           | [] => [String c EmptyString]
           | piece :: rest => String c piece :: rest
           end
  end.

(** [sep in s] *)
Fixpoint has_char (sep : ascii) (s : string) : bool :=
  match s with
  | EmptyString => false
  | String c s' => Ascii.eqb c sep || has_char sep s'
  end.

(** [s.count(sep)] *)
Fixpoint count_char (sep : ascii) (s : string) : nat :=
  match s with
  | EmptyString => 0
  | String c s' => (if Ascii.eqb c sep then 1 else 0) + count_char sep s'
  end.

(** [s[a:b]] for [0 ≤ a ≤ b] *)
Definition py_slice (a b : nat) (s : string) : string := substring a (b - a) s.

(** [s[a:]] *)
Definition py_from (a : nat) (s : string) : string :=
  substring a (String.length s - a) s.

(** [s[i]]: IndexError past the end of the string. *)
Definition py_char (i : nat) (s : string) : result string :=
  match String.get i s with
  | Some c => Ok (String c EmptyString)
  | None => Raise IndexError
  end.

(** [l[i]]: IndexError past the end of the list. *)
Definition py_item (i : nat) (l : list string) : result string :=
  match l !! i with
  | Some x => Ok x
  | None => Raise IndexError
  end.

(** [l[-1]] *)
Definition py_last (l : list string) : result string :=
  match last l with
  | Some x => Ok x
  | None => Raise IndexError
  end.

(** [data_type == t], where [data_type] may be [False]. *)
Definition is_type (data_type : str_or_false) (t : string) : bool :=
  match data_type with
  | PyStr s => String.eqb s t
  | PyFalse => false
  end.

(** Lines 748-751 (and again 754-757). *)
Definition modis_attributes (name : string) : result (list (string * string)) :=
  let n := split_on "." name in
  rbind (py_item 4 n) (fun end_ =>
  rbind (py_item 0 n) (fun n0 =>
  rbind (py_item 2 n) (fun n2 =>
  rbind (py_item 3 n) (fun n3 =>
  Ok (zip ["product"; "year"; "j_day"; "tile"; "type"; "version"; "tag"; "suffix"]
          [n0; py_slice 9 13 name; py_slice 13 16 name; n2; "MODIS"; n3;
           py_prefix 13 end_; py_from 13 end_]))))).

(** Lines 760-764. *)
Definition landsat_attributes (name : string) : result (list (string * string)) :=
  rbind (py_item 0 (split_on "." name)) (fun n =>
  rbind (py_char 1 n) (fun n1 =>
  rbind (py_char 2 n) (fun n2 =>
  rbind (py_item 0 (split_on "_" (py_from 23 n))) (fun band =>
  Ok (zip ["sensor"; "satellite"; "WRSpath"; "WRSrow"; "year"; "j_day";
           "groundstationID"; "Version"; "band"; "type"; "suffix"]
          [n1; n2; py_slice 3 6 n; py_slice 6 9 n; py_slice 9 13 n; py_slice 13 16 n;
           py_slice 16 19 n; py_slice 19 21 n; band; "Landsat";
           PyStr.join "_" (tail (split_on "_" (py_from 23 n)))]))))).

(** Lines 767-773. *)
Definition weld_attributes (name : string) : result (list (string * string)) :=
  let n := split_on "." name in
  rbind (py_item 0 n) (fun n0 =>
  rbind (py_item 1 n) (fun n1 =>
  rbind (py_item 2 n) (fun n2 =>
  rbind (py_item 3 n) (fun n3 =>
  rbind (py_item 4 n) (fun n4 =>
  let params := ["coverage"; "period"; "year"; "tile"; "start_day"; "end_day"; "type"] in
  let values := [n0; n1; n2; n3; py_slice 4 6 n4; py_slice 8 11 n4; "WELD"] in
  if has_char "_" name
  then Ok (zip (params ++ ["suffix"])
               (values ++ [PyStr.join "_" (tail (split_on "_" name))]))
  else Ok (zip params values)))))).

(** Lines 776-778. *)
Definition aster_attributes (name : string) : result (list (string * string)) :=
  let n := split_on "_" name in
  rbind (py_item 0 n) (fun n0 =>
  rbind (py_item 1 n) (fun n1 =>
  rbind (py_last n) (fun nlast =>
  rbind (py_item 0 (split_on "." nlast)) (fun period =>
  Ok (zip ["product"; "N"; "W"; "type"; "period"]
          [n0; py_slice 1 3 n1; py_slice 5 9 n1; period; "none"]))))).

(** What [grab_info] has after line 800: it has returned [False] (lines
    780-796), or [info] carries the attributes set on lines 799-800. *)
Inductive grabbed :=
| ReturnsFalse
| Attributes (info : list (string * string)).

Section GrabInfo.

Context `{Toolkit}.

(** [grab_info] (lines 737-800). *)
Definition grab_info_attributes (filepath : string) (data_type : str_or_false)
  : result grabbed :=
  let name := (path_split filepath).2 in
  let data_type := if truthy data_type then data_type else identify name in
  rbind (if is_type data_type "MODIS" then modis_attributes name else Ok []) (fun _ =>
  if is_type data_type "MODIS" then
    rbind (modis_attributes name) (fun info => Ok (Attributes info))
  else if is_type data_type "Landsat" then
    rbind (landsat_attributes name) (fun info => Ok (Attributes info))
  else if is_type data_type "WELD_CONUS" || is_type data_type "WELD_AK" then
    rbind (weld_attributes name) (fun info => Ok (Attributes info))
  else if is_type data_type "ASTER" then
    rbind (aster_attributes name) (fun info => Ok (Attributes info))
  else if is_type data_type "TRMM" then Ok ReturnsFalse
  else if is_type data_type "AMSR_E" then Ok ReturnsFalse
  else if is_type data_type "AIRS" then Ok ReturnsFalse
  else Ok ReturnsFalse).

End GrabInfo.

(** * Properties *)

(** ** [is_rast] *)

Lemma ext_in_In (ext : string) (types : list string) :
  ext_in ext types = true ↔ In ext types.
Proof.
  induction types as [|t rest IH]; simpl.
  - split; [discriminate | tauto].
  - destruct (String.eqb_spec ext t) as [->|Hne].
    + split; auto.
    + rewrite IH. split; [auto | intros [Heq|Hin]; [congruence | exact Hin]].
Qed.

Lemma rast_types_lower_upper :
  rast_types = raster_extensions ++ map PyStr.upper raster_extensions.
Proof. reflexivity. Qed.

(** C9, as the claim states it, fails: an existing file named [x.Tif]
    has a listed extension up to case, yet [is_rast] answers False. *)
Lemma is_rast_mixed_case_rejected :
  ¬ (∀ (isfile : string → bool) (filename : string),
       is_rast isfile filename = is_rast_case_insensitive isfile filename).
Proof.
  intros Hall.
  specialize (Hall (fun _ => true) "x.Tif").
  vm_compute in Hall. discriminate.
Qed.

(** C9 (amended): [is_rast] returns True exactly when the path names an
    existing file whose last three characters are one of the eleven
    extensions written all in lower case or all in upper case. *)
Theorem is_rast_lower_or_upper (isfile : string → bool) (filename : string) :
  is_rast isfile filename = true ↔
  isfile filename = true ∧
  (In (PyStr.last3 filename) raster_extensions ∨
   In (PyStr.last3 filename) (map PyStr.upper raster_extensions)).
Proof.
  unfold is_rast. rewrite <- in_app_iff, <- rast_types_lower_upper.
  destruct (isfile filename).
  - rewrite ext_in_In. tauto.
  - split; [discriminate | intros [Hf _]; discriminate].
Qed.

(** ** [create_outname] *)

Lemma create_outname_ok_inv (isfile : string → bool)
    (path_split : string → string * string) (path_join : string → string → string)
    (outdir : str_or_false) (inname suffix : string) (ext : str_or_false) (name : string) :
  create_outname isfile path_split path_join outdir inname suffix ext = Ok name →
  ∃ s, ext = PyStr s.
Proof.
  destruct ext as [|s]; simpl.
  - discriminate.
  - intros _. exists s. reflexivity.
Qed.

(** C10: with [ext] left at its default [False], [create_outname] raises
    at [ext.replace] whatever the other arguments are; a name comes back
    only for a string [ext]; and the loop body of [spatially_match], which
    calls it without [ext], raises there as soon as a raster passes the
    projection and resolution tests. *)
Theorem create_outname_default_ext_raises
    (isfile' : string → bool) (path_split' : string → string * string)
    (path_join' : string → string → string)
    (outdir : str_or_false) (inname suffix : string) :
  create_outname isfile' path_split' path_join' outdir inname suffix PyFalse
    = Raise AttributeError
  ∧ (∀ ext name,
       create_outname isfile' path_split' path_join' outdir inname suffix ext = Ok name →
       ∃ s, ext = PyStr s)
  ∧ (∀ (tk : Toolkit) snap_raster snap_meta outdir' tempdir numtype NoData resamp_type
       usetemp rastname w cells meta,
       to_numpy rastname w = (Ok (cells, meta), w) →
       projection snap_meta = projection meta →
       resolution_differs snap_meta meta = Ok false →
       match_one snap_raster snap_meta outdir' tempdir numtype NoData resamp_type
         usetemp rastname w = (Raise AttributeError, w)).
Proof.
  split; [reflexivity|]. split.
  - intros ext name. apply create_outname_ok_inv.
  - intros tk snap_raster snap_meta outdir' tempdir numtype NoData resamp_type
      usetemp rastname w cells meta Hload Hproj Hres.
    unfold match_one, bind. rewrite Hload.
    destruct (path_split rastname) as [head tail].
    rewrite Hproj, String.eqb_refl. simpl.
    unfold lift. rewrite Hres. reflexivity.
Qed.

Lemma create_outname_default_ext_raises_witness :
  let w := Sample.disk [("ref.tif", Sample.raster [[7]]%Q 30 30 0 0 (-9999));
                        ("in/a.tif", Sample.raster [[5]]%Q 30 30 0 0 (-9999))] in
  create_outname (isfile w) path_split path_join (PyStr "out") "in/a.tif" "matched"
    (PyStr "tif") = Ok "out/a_matched.tif"
  ∧ (∃ s, PyStr "tif" = PyStr s)
  ∧ ∃ snap_meta,
      to_numpy "ref.tif" w = (Ok ([[7]]%Q, snap_meta), w)
      ∧ match_one "ref.tif" snap_meta "out" "out/temp" PyFalse None PyFalse false
          "in/a.tif" w = (Raise AttributeError, w).
Proof.
  intros w.
  assert (Hname : create_outname (isfile w) path_split path_join (PyStr "out")
                    "in/a.tif" "matched" (PyStr "tif") = Ok "out/a_matched.tif")
    by (vm_compute; reflexivity).
  destruct (create_outname_default_ext_raises (isfile w) path_split path_join
              (PyStr "out") "in/a.tif" "matched") as (_ & Hstr & Hloop).
  split; [exact Hname|]. split; [exact (Hstr _ _ Hname)|].
  eexists. split; [vm_compute; reflexivity|].
  eapply (Hloop Sample.toolkit); vm_compute; reflexivity.
Defined.

(** ** The grid of [find_overlap] *)

(** C1: the code marks cells of the NoData band with 1 (not 0) and then
    thresholds the plain sum at 2.  At NoData 255 the upper-left cell, where
    neither raster has data, comes out 1, and the lower-right cell, where
    both have data (0.5), comes out 0. *)
Theorem overlap_Workmatrix_failing_input :
  let a := [[255; 10]; [255; 1 # 2]]%Q in
  let b := [[255; 255]; [3; 1 # 2]]%Q in
  overlap_Workmatrix a 255 b 255 = Ok [[1; 1]; [1; 0]]%Q
  ∧ (has_data 255 255 = false ∧ has_data 255 10 = true ∧ has_data 255 3 = true
     ∧ has_data 255 (1 # 2) = true).
Proof. vm_compute. repeat split; reflexivity. Qed.

Lemma Qplus_comm_eq (x y : Q) : (x + y)%Q = (y + x)%Q.
Proof.
  unfold Qplus. destruct x as [xn xd], y as [yn yd]; simpl.
  f_equal; [apply Z.add_comm | apply Pos.mul_comm].
Qed.

Lemma broadcast_axis_comm (m n : nat) : broadcast_axis m n = broadcast_axis n m.
Proof.
  unfold broadcast_axis.
  destruct (Nat.eqb_spec m n) as [->|Hmn].
  - rewrite Nat.eqb_refl. reflexivity.
  - destruct (Nat.eqb_spec n m) as [Heq|_]; [congruence|].
    destruct (Nat.eqb_spec m 1) as [Hm|Hm], (Nat.eqb_spec n 1) as [Hn|Hn];
      try reflexivity.
    congruence.
Qed.

Lemma tabulate_ext {A} (R C : nat) (f g : nat → nat → A) :
  (∀ i j, f i j = g i j) → tabulate R C f = tabulate R C g.
Proof.
  intros Hfg. unfold tabulate.
  apply map_ext. intros i. apply map_ext. intros j. apply Hfg.
Qed.

Lemma np_add_comm (a b : grid) : np_add a b = np_add b a.
Proof.
  unfold np_add.
  rewrite (broadcast_axis_comm (nrows a)), (broadcast_axis_comm (ncols a)).
  destruct (broadcast_axis (nrows b) (nrows a)) as [R|]; [|reflexivity].
  destruct (broadcast_axis (ncols b) (ncols a)) as [C|]; [|reflexivity].
  f_equal. apply tabulate_ext. intros i j. apply Qplus_comm_eq.
Qed.

(** ** [spatially_match] *)

(** C2: the snap raster has 30 x 30 cells, the candidate cells 60 wide and
    30 high, and no resampling type is given.  The cell sizes differ (in
    width), the test of lines 435-436 does not fire because the heights
    agree, no resolution error is raised, and the run goes on to
    name the output, where the missing [ext] raises AttributeError. *)
Theorem spatially_match_width_mismatch_not_reported :
  let w := Sample.disk [("ref.tif", Sample.raster [[7]]%Q 30 30 0 0 (-9999));
                        ("c.tif", Sample.raster [[5]]%Q 60 30 0 0 (-9999))] in
  ∃ snap_meta meta,
    to_numpy "ref.tif" w = (Ok ([[7]]%Q, snap_meta), w)
    ∧ to_numpy "c.tif" w = (Ok ([[5]]%Q, meta), w)
    ∧ cell_size_differs snap_meta meta = true
    ∧ resolution_differs snap_meta meta = Ok false
    ∧ fst (spatially_match "ref.tif" ["c.tif"] "out" PyFalse None PyFalse w)
      = Raise AttributeError.
Proof.
  intros w. do 2 eexists.
  split; [vm_compute; reflexivity|].
  split; [vm_compute; reflexivity|].
  vm_compute. repeat split; reflexivity.
Qed.

(** ** [clip_and_snap] *)

(** C3: a 2-row, 3-column reference and a one-cell candidate with the
    same lower-left corner, NoData -9999, saved with [NoData_Value = -1].
    The candidate cell lands in the last column instead of the first, and
    the padding holds the candidate's -9999 and not the -1 the file
    declares as its NoData value. *)
Theorem clip_and_snap_failing_input :
  let w := Sample.disk [("ref.tif", Sample.raster [[7; 7; 7]; [7; 7; 7]]%Q 1 1 0 0 (-9999));
                        ("c.tif", Sample.raster [[5]]%Q 1 1 0 0 (-9999))] in
  let '(r, w') := clip_and_snap "ref.tif" "c.tif" "out/c_matched.tif" PyFalse
                    (Some (-1)%Q) w in
  (∃ snap_meta meta, r = Ok (snap_meta, meta))
  ∧ files w' !! "out/c_matched.tif"
    = Some (Sample.raster [[-9999; -9999; -9999]; [-9999; -9999; 5]]%Q 1 1 0 0 (-1)).
Proof.
  vm_compute. split; [do 2 eexists; reflexivity | reflexivity].
Qed.

(** *** Slices and the paste *)

Lemma slice_indices_len (start stop : Z) (n : nat) :
  ((slice_indices start stop n).2 ≤ n)%nat.
Proof.
  unfold slice_indices, slice_bound; simpl.
  destruct (Z.ltb_spec start 0), (Z.ltb_spec stop 0); lia.
Qed.

Lemma slice_indices_inside (start stop : Z) (n : nat) :
  (0 ≤ start)%Z → (start ≤ stop)%Z → (stop ≤ Z.of_nat n)%Z →
  slice_indices start stop n = (Z.to_nat start, Z.to_nat (stop - start)).
Proof.
  intros H0 H1 H2. unfold slice_indices, slice_bound.
  destruct (Z.ltb_spec start 0), (Z.ltb_spec stop 0); try lia.
  rewrite !Z.min_l by lia. reflexivity.
Qed.


Lemma nrows_zeros_plus (ys xs : nat) (v : Q) : nrows (zeros_plus ys xs v) = ys.
Proof. unfold nrows, zeros_plus. apply length_replicate. Qed.


Lemma ncols_zeros_plus (ys xs : nat) (v : Q) :
  (1 ≤ ys)%nat → ncols (zeros_plus ys xs v) = xs.
Proof.
  unfold ncols, zeros_plus. destruct ys as [|ys]; simpl; [lia|].
  intros _. apply length_replicate.
Qed.

Lemma broadcasts_false (m l : nat) : (l < m)%nat → (2 ≤ m)%nat → broadcasts m l = false.
Proof.
  intros Hlt H2. unfold broadcasts.
  destruct (Nat.eqb_spec m l), (Nat.eqb_spec m 1); simpl; lia || reflexivity.
Qed.

Lemma slice_assign_raises (dst : grid) (r0 r1 c0 c1 : Z) (src : grid) :
  ((slice_indices r0 r1 (nrows dst)).2 < nrows src ∧ 2 ≤ nrows src)%nat
  ∨ ((slice_indices c0 c1 (ncols dst)).2 < ncols src ∧ 2 ≤ ncols src)%nat →
  slice_assign dst r0 r1 c0 c1 src = Raise ValueError.
Proof.
  intros Hbig. unfold slice_assign.
  destruct (slice_indices r0 r1 (nrows dst)) as [ra rl].
  destruct (slice_indices c0 c1 (ncols dst)) as [ca cl]. simpl in Hbig.
  destruct Hbig as [[Hlt H2]|[Hlt H2]].
  - rewrite (broadcasts_false _ _ Hlt H2). reflexivity.
  - rewrite (broadcasts_false _ _ Hlt H2), andb_false_r. reflexivity.
Qed.

(** A raster that is larger than the reference cannot be pasted: the
    slice is never longer than the reference's axis. *)
Lemma paste_exceeds (snap_meta meta : metadata) (raster : grid) (xoffset yoffset : Z) :
  nrows raster = Ysize meta → ncols raster = Xsize meta →
  (1 ≤ Ysize snap_meta)%nat → (1 ≤ Xsize snap_meta)%nat →
  exceeds meta snap_meta = true →
  paste snap_meta meta raster xoffset yoffset = Raise ValueError.
Proof.
  intros Hr Hc HsY HsX Hex. unfold paste.
  apply slice_assign_raises. rewrite Hr, Hc.
  unfold exceeds in Hex. apply orb_true_iff in Hex.
  destruct Hex as [Hx|Hy].
  - right. apply Nat.ltb_lt in Hx.
    pose proof (slice_indices_len
                  (Z.of_nat (Xsize snap_meta) - Z.of_nat (Xsize meta) - xoffset)
                  (Z.of_nat (Xsize snap_meta) - xoffset)
                  (ncols (zeros_plus (Ysize snap_meta) (Xsize snap_meta) (NoData_Value meta))))
      as Hlen.
    rewrite ncols_zeros_plus in Hlen by lia.
    rewrite ncols_zeros_plus by lia. lia.
  - left. apply Nat.ltb_lt in Hy.
    pose proof (slice_indices_len
                  (Z.of_nat (Ysize snap_meta) - Z.of_nat (Ysize meta) - yoffset)
                  (Z.of_nat (Ysize snap_meta) - yoffset)
                  (nrows (zeros_plus (Ysize snap_meta) (Xsize snap_meta) (NoData_Value meta))))
      as Hlen.
    rewrite nrows_zeros_plus in Hlen |- *. lia.
Qed.


Lemma cell_zeros_plus (ys xs : nat) (v : Q) (r c : nat) :
  (r < ys)%nat → (c < xs)%nat → cell (zeros_plus ys xs v) r c = Some v.
Proof.
  intros Hr Hc. unfold cell, zeros_plus.
  rewrite lookup_replicate_2 by exact Hr.
  apply lookup_replicate_2. exact Hc.
Qed.

Lemma has_shape_ncols {A} (R C : nat) (a : list (list A)) :
  has_shape R C a → (1 ≤ R)%nat →
  match a with [] => 0%nat | row :: _ => length row end = C.
Proof.
  intros [Hlen Hrows] HR. destruct a as [|row rest]; simpl in *; [lia|].
  inversion Hrows; subst. reflexivity.
Qed.


(** Reading an array of shape [(R, C)] through broadcasting at an index
    inside the shape is reading the cell. *)
Lemma bcell_cell {A} (d : A) (R C : nat) (a : list (list A)) (r c : nat) (v : A) :
  has_shape R C a → (r < R)%nat → (c < C)%nat →
  cell a r c = Some v → bcell d a r c = v.
Proof.
  intros Hsh Hr Hc Hcell. unfold bcell.
  rewrite (has_shape_ncols R C a Hsh) by lia.
  destruct Hsh as [Hlen _]. rewrite Hlen.
  assert (Hr' : (if (R =? 1)%nat then 0%nat else r) = r).
  { destruct (Nat.eqb_spec R 1); lia. }
  assert (Hc' : (if (C =? 1)%nat then 0%nat else c) = c).
  { destruct (Nat.eqb_spec C 1); lia. }
  rewrite Hr', Hc'. unfold cell in Hcell.
  destruct (a !! r) as [row|]; [|discriminate].
  rewrite Hcell. reflexivity.
Qed.

Lemma cell_slice_assign (dst : grid) (r0 r1 c0 c1 : Z) (src g : grid) (r c : nat) :
  slice_assign dst r0 r1 c0 c1 src = Ok g →
  let '(ra, rl) := slice_indices r0 r1 (nrows dst) in
  let '(ca, cl) := slice_indices c0 c1 (ncols dst) in
  cell g r c =
    (fun v => if in_window ra rl ca cl r c
              then bcell 0%Q src (r - ra) (c - ca) else v) <$> cell dst r c.
Proof.
  unfold slice_assign.
  destruct (slice_indices r0 r1 (nrows dst)) as [ra rl].
  destruct (slice_indices c0 c1 (ncols dst)) as [ca cl].
  destruct (broadcasts (nrows src) rl && broadcasts (ncols src) cl); [|discriminate].
  intros [= <-]. unfold cell.
  rewrite list_lookup_imap.
  destruct (dst !! r) as [row|]; simpl; [|reflexivity].
  rewrite list_lookup_imap. reflexivity.
Qed.

Lemma nrows_slice_assign (dst : grid) (r0 r1 c0 c1 : Z) (src g : grid) :
  slice_assign dst r0 r1 c0 c1 src = Ok g → nrows g = nrows dst.
Proof.
  unfold slice_assign.
  destruct (slice_indices r0 r1 (nrows dst)) as [ra rl].
  destruct (slice_indices c0 c1 (ncols dst)) as [ca cl].
  destruct (broadcasts (nrows src) rl && broadcasts (ncols src) cl); [|discriminate].
  intros [= <-]. unfold nrows. apply length_imap.
Qed.

Lemma ncols_slice_assign (dst : grid) (r0 r1 c0 c1 : Z) (src g : grid) :
  slice_assign dst r0 r1 c0 c1 src = Ok g → ncols g = ncols dst.
Proof.
  unfold slice_assign.
  destruct (slice_indices r0 r1 (nrows dst)) as [ra rl].
  destruct (slice_indices c0 c1 (ncols dst)) as [ca cl].
  destruct (broadcasts (nrows src) rl && broadcasts (ncols src) cl); [|discriminate].
  intros [= <-]. unfold ncols. destruct dst as [|row rest]; simpl; [reflexivity|].
  apply length_imap.
Qed.

Lemma has_shape_cell_lt {A} (R C : nat) (a : list (list A)) (r c : nat) (v : A) :
  has_shape R C a → cell a r c = Some v → (r < R)%nat ∧ (c < C)%nat.
Proof.
  intros [Hlen Hrows] Hcell. unfold cell in Hcell.
  destruct (a !! r) as [row|] eqn:Hrow; [|discriminate].
  pose proof (lookup_lt_Some _ _ _ Hrow) as Hr.
  pose proof (lookup_lt_Some _ _ _ Hcell) as Hc.
  rewrite (Forall_lookup_1 _ _ _ _ Hrows Hrow) in Hc. lia.
Qed.

Lemma slice_indices_paste (s m : nat) (o : Z) :
  (0 ≤ o)%Z → (o + Z.of_nat m ≤ Z.of_nat s)%Z →
  slice_indices (Z.of_nat s - Z.of_nat m - o) (Z.of_nat s - o) s
  = ((s - m - Z.to_nat o)%nat, m).
Proof.
  intros H0 H1. rewrite slice_indices_inside by lia. f_equal; lia.
Qed.

Lemma in_window_true (ra rl ca cl r c : nat) :
  (ra ≤ r < ra + rl)%nat ∧ (ca ≤ c < ca + cl)%nat → in_window ra rl ca cl r c = true.
Proof.
  intros [[H1 H2] [H3 H4]]. unfold in_window.
  apply Nat.leb_le in H1, H3. apply Nat.ltb_lt in H2, H4.
  rewrite H1, H2, H3, H4. reflexivity.
Qed.

Lemma in_window_false (ra rl ca cl r c : nat) :
  ¬ ((ra ≤ r < ra + rl)%nat ∧ (ca ≤ c < ca + cl)%nat) → in_window ra rl ca cl r c = false.
Proof.
  intros Hout. unfold in_window.
  destruct (Nat.leb_spec ra r), (Nat.ltb_spec r (ra + rl)),
    (Nat.leb_spec ca c), (Nat.ltb_spec c (ca + cl)); try reflexivity.
  exfalso. apply Hout. lia.
Qed.

(** The slice assignment when the source has the shape of the slice. *)
Lemma slice_assign_window (dst src : grid) (r0 r1 c0 c1 : Z) (ra rl ca cl : nat) :
  slice_indices r0 r1 (nrows dst) = (ra, rl) →
  slice_indices c0 c1 (ncols dst) = (ca, cl) →
  nrows src = rl → ncols src = cl →
  ∃ g, slice_assign dst r0 r1 c0 c1 src = Ok g
       ∧ ∀ r c, cell g r c
                = (fun v => if in_window ra rl ca cl r c
                            then bcell 0%Q src (r - ra) (c - ca) else v) <$> cell dst r c.
Proof.
  intros Hrs Hcs Hnr Hnc.
  destruct (slice_assign dst r0 r1 c0 c1 src) as [g|e] eqn:Hsa.
  - exists g. split; [reflexivity|]. intros r c.
    pose proof (cell_slice_assign _ _ _ _ _ _ _ r c Hsa) as Hg.
    rewrite Hrs, Hcs in Hg. exact Hg.
  - exfalso. unfold slice_assign in Hsa. rewrite Hrs, Hcs, Hnr, Hnc in Hsa.
    unfold broadcasts in Hsa. rewrite !Nat.eqb_refl in Hsa. discriminate.
Qed.

(** What the paste does for a raster that lies inside the reference: the
    buffer has the reference's shape; the raster's cell [(i, j)] is at row
    [Ysize snap - Ysize meta - yoffset + i] and at column
    [Xsize snap - Xsize meta - xoffset + j]; every other cell holds the
    raster's own NoData value. *)
Lemma paste_inside (snap_meta meta : metadata) (raster : grid) (xoffset yoffset : Z) :
  has_shape (Ysize meta) (Xsize meta) raster → (1 ≤ Ysize meta)%nat →
  (0 ≤ xoffset)%Z → (xoffset + Z.of_nat (Xsize meta) ≤ Z.of_nat (Xsize snap_meta))%Z →
  (0 ≤ yoffset)%Z → (yoffset + Z.of_nat (Ysize meta) ≤ Z.of_nat (Ysize snap_meta))%Z →
  ∃ newraster,
    paste snap_meta meta raster xoffset yoffset = Ok newraster
    ∧ nrows newraster = Ysize snap_meta
    ∧ ncols newraster = Xsize snap_meta
    ∧ (∀ i j v, cell raster i j = Some v →
         cell newraster
           (Ysize snap_meta - Ysize meta - Z.to_nat yoffset + i)
           (Xsize snap_meta - Xsize meta - Z.to_nat xoffset + j) = Some v)
    ∧ (∀ r c, (r < Ysize snap_meta)%nat → (c < Xsize snap_meta)%nat →
         ¬ ((Ysize snap_meta - Ysize meta - Z.to_nat yoffset ≤ r
             < Ysize snap_meta - Z.to_nat yoffset)%nat
            ∧ (Xsize snap_meta - Xsize meta - Z.to_nat xoffset ≤ c
               < Xsize snap_meta - Z.to_nat xoffset)%nat) →
         cell newraster r c = Some (NoData_Value meta)).
Proof.
  intros Hsh HmY Hx0 Hx1 Hy0 Hy1.
  pose proof (has_shape_ncols _ _ _ Hsh HmY) as Hnc.
  pose proof Hsh as [Hnr _].
  destruct (slice_assign_window
              (zeros_plus (Ysize snap_meta) (Xsize snap_meta) (NoData_Value meta)) raster
              (Z.of_nat (Ysize snap_meta) - Z.of_nat (Ysize meta) - yoffset)
              (Z.of_nat (Ysize snap_meta) - yoffset)
              (Z.of_nat (Xsize snap_meta) - Z.of_nat (Xsize meta) - xoffset)
              (Z.of_nat (Xsize snap_meta) - xoffset)
              (Ysize snap_meta - Ysize meta - Z.to_nat yoffset) (Ysize meta)
              (Xsize snap_meta - Xsize meta - Z.to_nat xoffset) (Xsize meta))
    as (g & Hsa & Hcells).
  - rewrite nrows_zeros_plus. apply slice_indices_paste; assumption.
  - rewrite ncols_zeros_plus by lia. apply slice_indices_paste; assumption.
  - exact Hnr.
  - exact Hnc.
  - exists g. split; [exact Hsa|].
    split; [rewrite (nrows_slice_assign _ _ _ _ _ _ _ Hsa); apply nrows_zeros_plus|].
    split; [rewrite (ncols_slice_assign _ _ _ _ _ _ _ Hsa); apply ncols_zeros_plus; lia|].
    split.
    + intros i j v Hcell.
      destruct (has_shape_cell_lt _ _ _ _ _ _ Hsh Hcell) as [Hi Hj].
      rewrite Hcells, cell_zeros_plus by lia.
      rewrite in_window_true by lia.
      cbn [fmap option_fmap option_map]. f_equal.
      apply (bcell_cell _ _ _ _ _ _ _ Hsh); [lia | lia |].
      rewrite <- Hcell. f_equal; lia.
    + intros r c Hr Hc Hout.
      rewrite Hcells, cell_zeros_plus by lia.
      rewrite in_window_false by lia.
      reflexivity.
Qed.

(** *** The arcpy calls and the files of a run *)

Lemma bind_inv {A B} (m : M A) (k : A → M B) (w w' : world) (r : result B) :
  bind m k w = (r, w') →
  (∃ a w1, m w = (Ok a, w1) ∧ k a w1 = (r, w'))
  ∨ (∃ e, m w = (Raise e, w') ∧ r = Raise e).
Proof.
  unfold bind. destruct (m w) as [[a|e] w1]; intros Hrun.
  - left. eauto.
  - right. inversion Hrun; subst. eauto.
Qed.

(** [step H] splits a run of [bind m k] into the run of [m] and, when [m]
    returned, the run of [k]. *)
Ltac step H :=
  let a := fresh "a" in
  let w := fresh "w" in
  let e := fresh "e" in
  let Hm := fresh "Hm" in
  apply bind_inv in H as [(a & w & Hm & H) | (e & Hm & ->)].

(** [step_ok H] is [step H] for a run known to have returned. *)
Ltac step_ok H :=
  let a := fresh "a" in
  let w := fresh "w" in
  let e := fresh "e" in
  let Hm := fresh "Hm" in
  let Hbad := fresh "Hbad" in
  apply bind_inv in H as [(a & w & Hm & H) | (e & _ & Hbad)]; [|discriminate Hbad].

(** The run from [w] to [w'] left the arcpy environment alone and changed
    only files whose path satisfies [S]. *)
Definition only_touches (S : string → Prop) (w w' : world) : Prop :=
  snapRaster w' = snapRaster w ∧ ∀ p, ¬ S p → files w' !! p = files w !! p.


Lemma only_touches_trans (S : string → Prop) (w1 w2 w3 : world) :
  only_touches S w1 w2 → only_touches S w2 w3 → only_touches S w1 w3.
Proof.
  intros [He1 Hf1] [He2 Hf2]. split; [congruence|].
  intros p Hp. rewrite Hf2, Hf1; auto.
Qed.

Lemma only_touches_weaken (S S' : string → Prop) (w w' : world) :
  (∀ p, S p → S' p) → only_touches S w w' → only_touches S' w w'.
Proof. intros Hsub [He Hf]. split; [exact He|]. intros p Hp. apply Hf. auto. Qed.

Section Effects.

Context `{Toolkit}.

Lemma to_numpy_world (raster : string) (w w' : world) (r : result (grid * metadata)) :
  to_numpy raster w = (r, w') → w' = w.
Proof.
  unfold to_numpy. intros Hrun.
  destruct (is_rast (isfile w) raster); [destruct (files w !! raster)|];
    inversion Hrun; reflexivity.
Qed.

Lemma to_numpy_shape (raster : string) (w w' : world) (cells : grid) (meta : metadata) :
  to_numpy raster w = (Ok (cells, meta), w') →
  nrows cells = Ysize meta ∧ ncols cells = Xsize meta.
Proof.
  unfold to_numpy. intros Hrun.
  destruct (is_rast (isfile w) raster); [destruct (files w !! raster)|];
    inversion Hrun; subst; simpl; auto.
Qed.

Lemma lift_world {A} (x : result A) (w w' : world) (r : result A) :
  lift x w = (r, w') → w' = w ∧ r = x.
Proof. unfold lift. intros [= <- <-]. auto. Qed.

Lemma clip_run (in_raster out_raster : string) (rect : Q * Q * Q * Q) (b : bool)
    (w w' : world) (r : result unit) :
  clip in_raster rect out_raster b w = (r, w') →
  calls w' = calls w ++ [Clip_call in_raster out_raster b]
  ∧ only_touches (eq out_raster) w w'.
Proof.
  unfold clip. intros Hrun.
  destruct (Clip_management _ in_raster rect b); inversion Hrun; subst.
  - split; [reflexivity|]. split; [reflexivity|].
    intros p Hp. simpl. apply lookup_insert_ne. exact Hp.
  - split; [reflexivity|]. split; [reflexivity|]. intros p _. reflexivity.
Qed.

(** Loading the clipped raster and finding its offsets changes nothing. *)
Lemma load_offsets_run (snap_meta : metadata) (path : string) (w w' : world)
    (r : result (grid * metadata * Z * Z)) :
  (do (raster, meta) <- to_numpy path ;;
   do (xoffset, yoffset) <- lift (offsets snap_meta meta) ;;
   ret (raster, meta, xoffset, yoffset))%py w = (r, w') →
  w' = w
  ∧ ∀ raster meta xoffset yoffset, r = Ok (raster, meta, xoffset, yoffset) →
      nrows raster = Ysize meta ∧ ncols raster = Xsize meta.
Proof.
  intros Hrun. step Hrun.
  - destruct a as [raster meta].
    pose proof (to_numpy_world _ _ _ _ Hm) as ->.
    apply to_numpy_shape in Hm.
    step Hrun.
    + destruct a as [xo yo]. apply lift_world in Hm0 as [-> _].
      inversion Hrun; subst. split; [reflexivity|].
      intros ? ? ? ? [= <- <- <- <-]. exact Hm.
    + apply lift_world in Hm0 as [-> _]. split; [reflexivity|]. discriminate.
  - apply to_numpy_world in Hm as ->. split; [reflexivity|]. discriminate.
Qed.

Lemma first_clip_run (snap_meta : metadata) (rastname tempout : string)
    (w w' : world) (r : result (grid * metadata * Z * Z)) :
  first_clip snap_meta rastname tempout w = (r, w') →
  (calls w' = calls w ++ [Clip_call rastname tempout true]
   ∨ calls w' = calls w ++ [Clip_call rastname tempout true;
                            Clip_call rastname tempout false])
  ∧ only_touches (eq tempout) w w'
  ∧ ∀ raster meta xoffset yoffset, r = Ok (raster, meta, xoffset, yoffset) →
      nrows raster = Ysize meta ∧ ncols raster = Xsize meta.
Proof.
  unfold first_clip. intros Hrun.
  assert (Htry : ∀ (r0 : result unit) (w0 : world),
            try_except (clip rastname (rectangle snap_meta) tempout true)
              (clip rastname (rectangle snap_meta) tempout false) w = (r0, w0) →
            (calls w0 = calls w ++ [Clip_call rastname tempout true]
             ∨ calls w0 = calls w ++ [Clip_call rastname tempout true;
                                      Clip_call rastname tempout false])
            ∧ only_touches (eq tempout) w w0).
  { unfold try_except. intros r0 w0 Htry.
    destruct (clip rastname (rectangle snap_meta) tempout true w) as [[[]|e1] w1] eqn:Hc1;
      apply clip_run in Hc1 as [Hcalls1 Htouch1].
    - inversion Htry; subst. auto.
    - apply clip_run in Htry as [Hcalls2 Htouch2]. split.
      + right. rewrite Hcalls2, Hcalls1, <- app_assoc. reflexivity.
      + exact (only_touches_trans _ _ _ _ Htouch1 Htouch2). }
  step Hrun.
  - destruct (Htry _ _ Hm) as [Hcalls Htouch].
    apply load_offsets_run in Hrun as [-> Hshape]. auto.
  - destruct (Htry _ _ Hm) as [Hcalls Htouch].
    split; [exact Hcalls|]. split; [exact Htouch|]. discriminate.
Qed.

Lemma second_clip_run (snap_meta : metadata) (tempout : string)
    (w w' : world) (r : result (grid * metadata * Z * Z)) :
  second_clip snap_meta tempout w = (r, w') →
  calls w' = calls w ++ [Clip_call tempout (PyStr.drop_last4 tempout +:+ "2.tif") false]
  ∧ only_touches (eq (PyStr.drop_last4 tempout +:+ "2.tif")) w w'
  ∧ ∀ raster meta xoffset yoffset, r = Ok (raster, meta, xoffset, yoffset) →
      nrows raster = Ysize meta ∧ ncols raster = Xsize meta.
Proof.
  unfold second_clip. intros Hrun. step Hrun.
  - apply clip_run in Hm as [Hcalls Htouch].
    apply load_offsets_run in Hrun as [-> Hshape]. auto.
  - apply clip_run in Hm as [Hcalls Htouch].
    split; [exact Hcalls|]. split; [exact Htouch|]. discriminate.
Qed.

Lemma load_clipped_run (snap_meta : metadata) (rastname tempout : string)
    (w w' : world) (r : result (grid * metadata * Z * Z)) :
  load_clipped snap_meta rastname tempout w = (r, w') →
  (∃ first extra,
      calls w' = calls w ++ first ++ extra
      ∧ (first = [Clip_call rastname tempout true]
         ∨ first = [Clip_call rastname tempout true; Clip_call rastname tempout false])
      ∧ (extra = []
         ∨ extra = [Clip_call tempout (PyStr.drop_last4 tempout +:+ "2.tif") false]))
  ∧ only_touches
      (fun p => p = tempout ∨ p = PyStr.drop_last4 tempout +:+ "2.tif") w w'
  ∧ ∀ raster meta xoffset yoffset, r = Ok (raster, meta, xoffset, yoffset) →
      nrows raster = Ysize meta ∧ ncols raster = Xsize meta.
Proof.
  unfold load_clipped. intros Hrun. step Hrun.
  - destruct a as [[[raster1 meta1] xo1] yo1].
    apply first_clip_run in Hm as (Hcalls1 & Htouch1 & Hshape1).
    apply (only_touches_weaken _
             (fun p => p = tempout ∨ p = PyStr.drop_last4 tempout +:+ "2.tif"))
      in Htouch1; [|intros p <-; auto].
    destruct (exceeds meta1 snap_meta).
    + apply second_clip_run in Hrun as (Hcalls2 & Htouch2 & Hshape2).
      apply (only_touches_weaken _
               (fun p => p = tempout ∨ p = PyStr.drop_last4 tempout +:+ "2.tif"))
        in Htouch2; [|intros p <-; auto].
      split; [|split; [exact (only_touches_trans _ _ _ _ Htouch1 Htouch2)|exact Hshape2]].
      destruct Hcalls1 as [Hc|Hc]; rewrite Hcalls2, Hc, <- app_assoc;
        eexists _, _; (split; [reflexivity|]); auto.
    + inversion Hrun; subst.
      split; [|split; [exact Htouch1|]].
      * destruct Hcalls1 as [Hc|Hc]; rewrite Hc;
          eexists _, []; rewrite app_nil_r; (split; [reflexivity|]); auto.
      * intros ? ? ? ? [= <- <- <- <-]. eapply Hshape1. reflexivity.
  - apply first_clip_run in Hm as (Hcalls1 & Htouch1 & _).
    split; [|split; [|discriminate]].
    + destruct Hcalls1 as [Hc|Hc]; rewrite Hc;
        eexists _, []; rewrite app_nil_r; (split; [reflexivity|]); auto.
    + apply (only_touches_weaken _ _ _ _ (fun p (Hp : tempout = p) => or_introl (eq_sym Hp))
               Htouch1).
Qed.



(** [cast_array] fails only with TypeError. *)
Lemma cast_array_raises (num_type : str_or_false) (numpy_rast : grid) (e : exn) :
  cast_array num_type numpy_rast = Raise e → e = TypeError.
Proof.
  unfold cast_array. destruct num_type as [|t]; [discriminate|].
  destruct (truthy (PyStr t)); [|discriminate].
  destruct (astype t); [discriminate|]. intros [= <-]. reflexivity.
Qed.





Lemma plop_raises (snap_meta : metadata) (outname tempdir : string)
    (numtype : str_or_false) (NoData : option Q) (raster : grid) (meta : metadata)
    (xoffset yoffset : Z) (w : world) (e : exn) :
  paste snap_meta (move_origin snap_meta meta) raster xoffset yoffset = Raise e →
  plop snap_meta outname tempdir numtype NoData raster meta xoffset yoffset w
  = (Raise e, w).
Proof. intros Hpaste. unfold plop, bind, lift. rewrite Hpaste. reflexivity. Qed.



Lemma clip_and_snap_unfold (snap_raster rastname outname : string)
    (numtype : str_or_false) (NoData : option Q) (w : world)
    (g0 g1 : grid) (snap_meta meta0 : metadata) :
  to_numpy snap_raster w = (Ok (g0, snap_meta), w) →
  to_numpy rastname w = (Ok (g1, meta0), w) →
  clip_and_snap snap_raster rastname outname numtype NoData w
  = bind (load_clipped snap_meta rastname
            (path_join (path_join (path_split outname).1 "temp") (path_split outname).2))
      (fun '(raster, meta, xoffset, yoffset) =>
         plop snap_meta outname (path_join (path_split outname).1 "temp")
           (if truthy numtype then numtype else PyStr "float32")
           (if py_not NoData then Some (NoData_Value meta0) else NoData)
           raster meta xoffset yoffset)
      (set_snapRaster snap_raster w).
Proof.
  intros Hsnap Hrast. unfold clip_and_snap.
  unfold bind at 1. rewrite Hsnap.
  unfold bind at 1. rewrite Hrast.
  reflexivity.
Qed.


(** [find_overlap] stops at the unbound name of line 346. *)
Lemma find_overlap_raises (file_A : string) (NoData_A : Q) (file_B : string)
    (NoData_B : Q) (outpath : string) (w : world) :
  find_overlap file_A NoData_A file_B NoData_B outpath w = (Raise NameError, w).
Proof. reflexivity. Qed.

End Effects.

(** ** [find_overlap] *)

Lemma to_numpy_file `{Toolkit} (raster : string) (w w' : world) (cells : grid)
    (meta : metadata) :
  to_numpy raster w = (Ok (cells, meta), w') →
  ∃ f, files w !! raster = Some f ∧ rf_cells f = cells.
Proof.
  unfold to_numpy. intros Hrun.
  destruct (is_rast (isfile w) raster); [|discriminate].
  destruct (files w !! raster) as [f|]; [|discriminate].
  exists f. inversion Hrun. auto.
Qed.

(** The grid of lines 361-367 is the same for [(a, NoData_A, b, NoData_B)]
    and [(b, NoData_B, a, NoData_A)], a shape mismatch raising the same
    error both ways. *)
Lemma overlap_Workmatrix_comm (a b : grid) (NoData_A NoData_B : Q) :
  overlap_Workmatrix a NoData_A b NoData_B = overlap_Workmatrix b NoData_B a NoData_A.
Proof. unfold overlap_Workmatrix. rewrite np_add_comm. reflexivity. Qed.

(** C6: [find_overlap] yields no output grid, in either order of its
    arguments: for all files, NoData values and worlds the call ends in
    NameError on line 346 and leaves the world as it was, so the lines
    that align the rasters and compute the grid are never reached. *)
Theorem find_overlap_no_grid `{Toolkit} (file_A file_B : string) (NoData_A NoData_B : Q)
    (outpath : string) (w : world) :
  find_overlap file_A NoData_A file_B NoData_B outpath w = (Raise NameError, w)
  ∧ find_overlap file_B NoData_B file_A NoData_A outpath w = (Raise NameError, w).
Proof. split; apply find_overlap_raises. Qed.

(** ** [clip_and_snap]: the crop passes *)

(** C4: when the raster loaded after the first clip is larger than the
    reference, [clip_and_snap] clips exactly once more (one further
    [Clip_management] call, from the first temporary raster to the
    second) and goes on with the raster and the offsets of that pass;
    when the raster loaded after that
    pass is still larger, the run ends there with ValueError, raised by
    the slice assignment: the world is the one the second clip left, so
    nothing was saved.  Every run makes the first clip (retried once
    without MAINTAIN_EXTENT when it fails) and at most this one extra. *)
Theorem clip_and_snap_one_extra_clip `{Toolkit}
    (snap_raster rastname outname : string) (numtype : str_or_false) (NoData : option Q)
    (w w1 w2 : world) (g0 g1 raster1 : grid) (snap_meta meta0 meta1 : metadata)
    (xo1 yo1 : Z) (r2 : result (grid * metadata * Z * Z)) :
  let tempdir := path_join (path_split outname).1 "temp" in
  let tempout := path_join tempdir (path_split outname).2 in
  let tempout2 := PyStr.drop_last4 tempout +:+ "2.tif" in
  to_numpy snap_raster w = (Ok (g0, snap_meta), w) →
  to_numpy rastname w = (Ok (g1, meta0), w) →
  (1 ≤ Ysize snap_meta)%nat → (1 ≤ Xsize snap_meta)%nat →
  first_clip snap_meta rastname tempout (set_snapRaster snap_raster w)
    = (Ok (raster1, meta1, xo1, yo1), w1) →
  exceeds meta1 snap_meta = true →
  second_clip snap_meta tempout w1 = (r2, w2) →
  load_clipped snap_meta rastname tempout (set_snapRaster snap_raster w) = (r2, w2)
  ∧ calls w2 = calls w1 ++ [Clip_call tempout tempout2 false]
  ∧ (∀ raster2 meta2 xo2 yo2,
       r2 = Ok (raster2, meta2, xo2, yo2) → exceeds meta2 snap_meta = true →
       clip_and_snap snap_raster rastname outname numtype NoData w
       = (Raise ValueError, w2))
  ∧ (∀ r w', load_clipped snap_meta rastname tempout (set_snapRaster snap_raster w)
             = (r, w') →
       ∃ first extra,
         calls w' = calls w ++ first ++ extra
         ∧ (first = [Clip_call rastname tempout true]
            ∨ first = [Clip_call rastname tempout true; Clip_call rastname tempout false])
         ∧ (extra = [] ∨ extra = [Clip_call tempout tempout2 false])).
Proof.
  intros tempdir tempout tempout2 Hsnap Hrast HsY HsX Hfirst Hex1 Hsecond.
  pose proof (second_clip_run _ _ _ _ _ Hsecond) as (Hcalls & _ & Hshape).
  split; [unfold load_clipped, bind; rewrite Hfirst, Hex1; exact Hsecond|].
  split; [exact Hcalls|]. split.
  - intros raster2 meta2 xo2 yo2 -> Hex2.
    rewrite (clip_and_snap_unfold _ _ _ _ _ _ _ _ _ _ Hsnap Hrast).
    fold tempdir tempout.
    unfold bind, load_clipped, bind. rewrite Hfirst, Hex1, Hsecond.
    apply plop_raises.
    destruct (Hshape _ _ _ _ eq_refl) as [Hr Hc].
    apply paste_exceeds; auto.
  - intros r w' Hload.
    apply load_clipped_run in Hload as ((first & extra & Hc & Hf & He) & _).
    exists first, extra. auto.
Qed.

Lemma clip_and_snap_one_extra_clip_witness :
  let big := [[1; 2; 3]; [4; 5; 6]; [7; 8; 9]]%Q in
  let w := Sample.disk [("ref.tif", Sample.raster [[7; 7]; [7; 7]]%Q 1 1 0 0 (-9999));
                        ("big.tif", Sample.raster big 1 1 0 0 (-9999))] in
  ∃ w2,
    clip_and_snap "ref.tif" "big.tif" "out/big_matched.tif" PyFalse None w
    = (Raise ValueError, w2)
    ∧ calls w2 = [Clip_call "big.tif" "out/temp/big_matched.tif" true;
                  Clip_call "out/temp/big_matched.tif" "out/temp/big_matched2.tif" false]
    ∧ files w2 !! "out/big_matched.tif" = None.
Proof.
  intros big w.
  destruct (second_clip
              {| Xsize := 2; Ysize := 2; cellWidth := 1; cellHeight := 1;
                 Xmin := 0; Ymin := 0; projection := "UTM"; NoData_Value := -9999 |}
              "out/temp/big_matched.tif"
              (first_clip
                 {| Xsize := 2; Ysize := 2; cellWidth := 1; cellHeight := 1;
                    Xmin := 0; Ymin := 0; projection := "UTM"; NoData_Value := -9999 |}
                 "big.tif" "out/temp/big_matched.tif" (set_snapRaster "ref.tif" w)).2)
    as [r2 w2] eqn:Hsecond.
  exists w2.
  pose proof Hsecond as Heval. vm_compute in Heval.
  injection Heval as Hr2 Hw2.
  destruct (clip_and_snap_one_extra_clip (H := Sample.toolkit)
              "ref.tif" "big.tif" "out/big_matched.tif" PyFalse None
              w (first_clip
                   {| Xsize := 2; Ysize := 2; cellWidth := 1; cellHeight := 1;
                      Xmin := 0; Ymin := 0; projection := "UTM"; NoData_Value := -9999 |}
                   "big.tif" "out/temp/big_matched.tif" (set_snapRaster "ref.tif" w)).2
              w2 [[7; 7]; [7; 7]]%Q big big
              {| Xsize := 2; Ysize := 2; cellWidth := 1; cellHeight := 1;
                 Xmin := 0; Ymin := 0; projection := "UTM"; NoData_Value := -9999 |}
              {| Xsize := 3; Ysize := 3; cellWidth := 1; cellHeight := 1;
                 Xmin := 0; Ymin := 0; projection := "UTM"; NoData_Value := -9999 |}
              {| Xsize := 3; Ysize := 3; cellWidth := 1; cellHeight := 1;
                 Xmin := 0; Ymin := 0; projection := "UTM"; NoData_Value := -9999 |}
              0%Z 0%Z r2) as (_ & Hcalls & Hraise & _).
  - vm_compute; reflexivity.
  - vm_compute; reflexivity.
  - simpl; lia.
  - simpl; lia.
  - vm_compute; reflexivity.
  - reflexivity.
  - exact Hsecond.
  - split; [|split].
    + eapply Hraise; [symmetry; exact Hr2 | reflexivity].
    + rewrite <- Hw2. reflexivity.
    + rewrite <- Hw2. vm_compute. reflexivity.
Defined.

(** ** [clip_and_snap]: a raster outside the reference *)





Lemma slice_assign_error (dst : grid) (r0 r1 c0 c1 : Z) (src : grid) (e : exn) :
  slice_assign dst r0 r1 c0 c1 src = Raise e → e = ValueError.
Proof.
  unfold slice_assign.
  destruct (slice_indices r0 r1 (nrows dst)) as [ra rl].
  destruct (slice_indices c0 c1 (ncols dst)) as [ca cl].
  destruct (broadcasts (nrows src) rl && broadcasts (ncols src) cl); [discriminate|].
  intros [= <-]. reflexivity.
Qed.





Lemma paste_error (snap_meta meta : metadata) (raster : grid) (xoffset yoffset : Z)
    (e : exn) :
  paste snap_meta meta raster xoffset yoffset = Raise e → e = ValueError.
Proof. unfold paste. apply slice_assign_error. Qed.



(** ** Effects of [clip_and_snap] and [find_overlap] *)




(** ** [many_stats] *)

Lemma lookup_map {A B} (f : A → B) (l : list A) (i : nat) :
  map f l !! i = f <$> l !! i.
Proof.
  revert i. induction l as [|x l IH]; intros [|i]; simpl; auto.
Qed.

Lemma cell_map {A B} (f : A → B) (a : list (list A)) (r c : nat) :
  cell (map (map f) a) r c = f <$> cell a r c.
Proof.
  unfold cell. rewrite lookup_map.
  destruct (a !! r) as [row|]; simpl; [apply lookup_map | reflexivity].
Qed.

Lemma has_shape_map {A B} (f : A → B) (R C : nat) (a : list (list A)) :
  has_shape R C a → has_shape R C (map (map f) a).
Proof.
  intros [Hlen Hrows]. split.
  - rewrite length_map. exact Hlen.
  - apply Forall_forall. intros row Hin.
    apply list_elem_of_In, in_map_iff in Hin as (row0 & <- & Hin0).
    rewrite length_map. rewrite Forall_forall in Hrows.
    apply Hrows, list_elem_of_In, Hin0.
Qed.

Lemma has_shape_tabulate {A} (R C : nat) (f : nat → nat → A) :
  has_shape R C (tabulate R C f).
Proof.
  unfold tabulate. split.
  - rewrite length_map, length_seq. reflexivity.
  - apply Forall_forall. intros row Hin.
    apply list_elem_of_In, in_map_iff in Hin as (i & <- & _).
    rewrite length_map, length_seq. reflexivity.
Qed.

Lemma cell_tabulate {A} (R C : nat) (f : nat → nat → A) (r c : nat) :
  (r < R)%nat → (c < C)%nat → cell (tabulate R C f) r c = Some (f r c).
Proof.
  intros Hr Hc. unfold cell, tabulate.
  rewrite lookup_map, lookup_seq_lt by exact Hr. simpl.
  rewrite lookup_map, lookup_seq_lt by exact Hc. reflexivity.
Qed.












(** ** The rule the overlap grid follows *)

Lemma has_shape_mask_set (cond : Q → bool) (v : Q) (R C : nat) (a : grid) :
  has_shape R C a → has_shape R C (mask_set cond v a).
Proof. apply has_shape_map. Qed.

(** For two arrays of one shape, a cell of the grid is 1 exactly when the
    sum of the two cells, each replaced by 1 when it lies in its NoData
    band, is at least 2; otherwise it is 0.  In particular a cell where
    both rasters are NoData is 1. *)
Lemma overlap_Workmatrix_cell (a b : grid) (NoData_A NoData_B : Q) (R C : nat) :
  has_shape R C a → has_shape R C b → (1 ≤ R)%nat →
  ∃ Workmatrix,
    overlap_Workmatrix a NoData_A b NoData_B = Ok Workmatrix
    ∧ ∀ r c x y, cell a r c = Some x → cell b r c = Some y →
        cell Workmatrix r c
        = Some (if Qle_bool 2 ((if in_nodata_band NoData_A x then 1 else x)
                               + (if in_nodata_band NoData_B y then 1 else y))
                then 1%Q else 0%Q).
Proof.
  intros Ha Hb HR. unfold overlap_Workmatrix, np_add.
  pose proof (has_shape_mask_set (in_nodata_band NoData_A) 1 _ _ _ Ha) as Hma.
  pose proof (has_shape_mask_set (in_nodata_band NoData_B) 1 _ _ _ Hb) as Hmb.
  unfold nrows, ncols.
  rewrite (has_shape_ncols _ _ _ Hma HR), (has_shape_ncols _ _ _ Hmb HR).
  rewrite (proj1 Hma), (proj1 Hmb).
  unfold broadcast_axis. rewrite !Nat.eqb_refl. simpl rbind.
  eexists. split; [reflexivity|].
  intros r c x y Hx Hy.
  destruct (has_shape_cell_lt _ _ _ _ _ _ Ha Hx) as [Hr Hc].
  unfold mask_set at 1 2. rewrite !cell_map, cell_tabulate by assumption.
  rewrite (bcell_cell 0%Q R C _ r c (if in_nodata_band NoData_A x then 1%Q else x) Hma Hr Hc)
    by (unfold mask_set; rewrite cell_map, Hx; reflexivity).
  rewrite (bcell_cell 0%Q R C _ r c (if in_nodata_band NoData_B y then 1%Q else y) Hmb Hr Hc)
    by (unfold mask_set; rewrite cell_map, Hy; reflexivity).
  cbn [fmap option_fmap option_map]. f_equal.
  unfold Qlt_bool.
  set (sum := ((if in_nodata_band NoData_A x then 1 else x)
               + (if in_nodata_band NoData_B y then 1 else y))%Q).
  destruct (Qle_bool 2 sum) eqn:Hle; cbn [negb]; [rewrite Hle|]; reflexivity.
Qed.

(** * Further properties of the code *)

(** ** Names built by [create_outname] *)

Lemma remove_dots_no_dot (s : string) : PyStr.has_dot (PyStr.remove_dots s) = false.
Proof.
  induction s as [|c s IH]; simpl; [reflexivity|].
  destruct (Ascii.eqb c PyStr.dot) eqn:Hc; simpl; [exact IH|].
  rewrite Hc, IH. reflexivity.
Qed.

Lemma remove_dots_id (s : string) : PyStr.has_dot s = false → PyStr.remove_dots s = s.
Proof.
  induction s as [|c s IH]; simpl; [reflexivity|].
  destruct (Ascii.eqb c PyStr.dot); simpl; [discriminate|].
  intros Hs. rewrite IH by exact Hs. reflexivity.
Qed.

Lemma split_dot_not_nil (s : string) : PyStr.split_dot s ≠ [].
Proof.
  destruct s as [|c s]; simpl; [discriminate|].
  destruct (Ascii.eqb c PyStr.dot); [discriminate|].
  destruct (PyStr.split_dot s); discriminate.
Qed.

Lemma split_dot_no_dot (s : string) : PyStr.has_dot s = false → PyStr.split_dot s = [s].
Proof.
  induction s as [|c s IH]; simpl; [reflexivity|].
  destruct (Ascii.eqb c PyStr.dot); simpl; [discriminate|].
  intros Hs. rewrite IH by exact Hs. reflexivity.
Qed.

(** Splitting [stem.e] at the dots, for a last piece [e] without dot. *)
Lemma split_dot_app (stem e : string) :
  PyStr.has_dot e = false →
  PyStr.split_dot (stem +:+ "." +:+ e) = PyStr.split_dot stem ++ [e].
Proof.
  intros He. induction stem as [|c stem IH].
  - change (PyStr.split_dot (String PyStr.dot e) = [EmptyString; e]).
    simpl. rewrite (split_dot_no_dot e He). reflexivity.
  - change (String c stem +:+ "." +:+ e) with (String c (stem +:+ "." +:+ e)).
    simpl. rewrite IH.
    destruct (Ascii.eqb c PyStr.dot); [reflexivity|].
    pose proof (split_dot_not_nil stem) as Hne.
    destruct (PyStr.split_dot stem) as [|piece rest]; [contradiction|reflexivity].
Qed.

(** Joining the pieces of a split gives the text back. *)
Lemma join_split_dot (s : string) : PyStr.join "." (PyStr.split_dot s) = s.
Proof.
  induction s as [|c s IH]; [reflexivity|].
  simpl PyStr.split_dot.
  pose proof (split_dot_not_nil s) as Hne.
  destruct (Ascii.eqb_spec c PyStr.dot) as [->|Hc].
  - destruct (PyStr.split_dot s) as [|piece rest] eqn:Hs; [contradiction|].
    change (PyStr.join "." (EmptyString :: piece :: rest))
      with ("." +:+ PyStr.join "." (piece :: rest)).
    rewrite IH. reflexivity.
  - destruct (PyStr.split_dot s) as [|piece rest] eqn:Hs; [contradiction|].
    destruct rest as [|piece' rest'].
    + simpl in IH |- *. rewrite IH. reflexivity.
    + change (PyStr.join "." (String c piece :: piece' :: rest'))
        with (String c (piece +:+ "." +:+ PyStr.join "." (piece' :: rest'))).
      change (PyStr.join "." (piece :: piece' :: rest'))
        with (piece +:+ "." +:+ PyStr.join "." (piece' :: rest')) in IH.
      rewrite IH. reflexivity.
Qed.

Lemma but_last_app {A} (l : list A) (x : A) : PyStr.but_last (l ++ [x]) = l.
Proof. unfold PyStr.but_last. apply removelast_last. Qed.

Lemma last_slice_app {A} (l : list A) (x : A) : PyStr.last_slice (l ++ [x]) = [x].
Proof. unfold PyStr.last_slice. rewrite rev_unit. reflexivity. Qed.

(** The name without its last piece, and the last piece, of [stem.e]. *)
Lemma noext_of_dotted (stem e : string) :
  PyStr.has_dot e = false →
  PyStr.join "." (PyStr.but_last (PyStr.split_dot (stem +:+ "." +:+ e))) = stem
  ∧ PyStr.join "" (PyStr.last_slice (PyStr.split_dot (stem +:+ "." +:+ e))) = e.
Proof.
  intros He. rewrite (split_dot_app stem e He), but_last_app, last_slice_app.
  split; [apply join_split_dot | reflexivity].
Qed.

Lemma has_dot_dotted (stem e : string) : PyStr.has_dot (stem +:+ "." +:+ e) = true.
Proof.
  induction stem as [|c stem IH]; simpl.
  - reflexivity.
  - rewrite IH. apply orb_true_r.
Qed.

Section OutnameFacts.

Variable isfile' : string → bool.
Variable path_split' : string → string * string.
Variable path_join' : string → string → string.

(** X1: for a file name [stem.e0] (the input's own name when it is not a
    file on disk, the second half of [os.path.split] when it is) and a
    non-empty output directory, [create_outname] returns
    [outdir/stem_suffix.e], where [e] is [ext] with its dots removed, or
    the input's own extension [e0] when nothing is left of [ext]. *)
Theorem create_outname_dotted (outdir inname suffix ext stem e0 : string) :
  outdir ≠ EmptyString →
  (if isfile' inname then (path_split' inname).2 else inname) = stem +:+ "." +:+ e0 →
  PyStr.has_dot e0 = false →
  create_outname isfile' path_split' path_join' (PyStr outdir) inname suffix (PyStr ext)
  = Ok (path_join' outdir
          (stem +:+ "_" +:+ suffix +:+ "." +:+
             (if truthy (PyStr (PyStr.remove_dots ext)) then PyStr.remove_dots ext else e0))).
Proof.
  intros Hout Htail He0.
  destruct (noext_of_dotted stem e0 He0) as [Hstem Hlast].
  unfold create_outname, ext_replace, rbind.
  assert (Htruthy : truthy (PyStr outdir) = true).
  { destruct outdir; [contradiction | reflexivity]. }
  destruct (isfile' inname).
  - destruct (path_split' inname) as [head tail]. simpl in Htail. subst tail.
    rewrite Hstem, Hlast, Htruthy.
    destruct (truthy (PyStr (PyStr.remove_dots ext))); reflexivity.
  - subst inname. rewrite has_dot_dotted, Hstem, Hlast, Htruthy.
    destruct (truthy (PyStr (PyStr.remove_dots ext))); reflexivity.
Qed.

(** X2: given a string [ext], [create_outname] returns a name when
    [outdir] is a non-empty string or the input is a file on disk, and
    raises UnboundLocalError otherwise ([head] was never bound); dots in
    [ext] make no difference to the outcome. *)
Theorem create_outname_string_ext (outdir : str_or_false) (inname suffix ext : string) :
  (truthy outdir || isfile' inname = true →
   ∃ name, create_outname isfile' path_split' path_join' outdir inname suffix (PyStr ext)
           = Ok name)
  ∧ (truthy outdir || isfile' inname = false →
     create_outname isfile' path_split' path_join' outdir inname suffix (PyStr ext)
     = Raise UnboundLocalError)
  ∧ create_outname isfile' path_split' path_join' outdir inname suffix (PyStr ext)
    = create_outname isfile' path_split' path_join' outdir inname suffix
        (PyStr (PyStr.remove_dots ext)).
Proof.
  split; [|split].
  - intros Hdir. unfold create_outname, ext_replace, rbind.
    destruct (isfile' inname).
    + destruct (path_split' inname) as [head tail].
      destruct outdir as [|d]; [eauto|]. destruct (truthy (PyStr d)); eauto.
    + rewrite orb_false_r in Hdir.
      destruct outdir as [|d]; [discriminate|]. rewrite Hdir.
      destruct (PyStr.has_dot inname); eauto.
  - intros Hdir. apply orb_false_iff in Hdir as [Hout Hfile].
    unfold create_outname, ext_replace, rbind. rewrite Hfile.
    destruct outdir as [|d]; [|rewrite Hout];
      destruct (PyStr.has_dot inname); reflexivity.
  - unfold create_outname, ext_replace, rbind.
    rewrite (remove_dots_id (PyStr.remove_dots ext)) by apply remove_dots_no_dot.
    reflexivity.
Qed.

(** X3: an input that is not a file on disk and has no dot in its name,
    with nothing given as [ext]: the whole input name is taken as the
    extension, so the output is [outdir/name_suffix.name]. *)
Theorem create_outname_no_dot (outdir inname suffix ext : string) :
  outdir ≠ EmptyString → isfile' inname = false → PyStr.has_dot inname = false →
  PyStr.remove_dots ext = EmptyString →
  create_outname isfile' path_split' path_join' (PyStr outdir) inname suffix (PyStr ext)
  = Ok (path_join' outdir (inname +:+ "_" +:+ suffix +:+ "." +:+ inname)).
Proof.
  intros Hout Hfile Hdot Hext.
  unfold create_outname, ext_replace, rbind.
  rewrite Hfile, Hdot, Hext, (split_dot_no_dot inname Hdot).
  destruct outdir; [contradiction|]. reflexivity.
Qed.

End OutnameFacts.

Lemma create_outname_dotted_witness :
  create_outname (fun _ => false) Sample.split_last_slash (fun a b => a +:+ "/" +:+ b)
    (PyStr "out") "Landsat_tile.tif" "adjusted" (PyStr "")
  = Ok "out/Landsat_tile_adjusted.tif".
Proof.
  apply (create_outname_dotted (fun _ => false) Sample.split_last_slash
           (fun a b => a +:+ "/" +:+ b) "out" "Landsat_tile.tif" "adjusted" ""
           "Landsat_tile" "tif"); [discriminate | reflexivity | reflexivity].
Defined.

Lemma create_outname_string_ext_witness :
  (∃ name, create_outname (fun _ => true) Sample.split_last_slash
             (fun a b => a +:+ "/" +:+ b) PyFalse "in/a.tif" "c" (PyStr ".img") = Ok name)
  ∧ create_outname (fun _ => false) Sample.split_last_slash
      (fun a b => a +:+ "/" +:+ b) PyFalse "in/a.tif" "c" (PyStr ".img")
    = Raise UnboundLocalError.
Proof.
  split.
  - destruct (create_outname_string_ext (fun _ => true) Sample.split_last_slash
                (fun a b => a +:+ "/" +:+ b) PyFalse "in/a.tif" "c" ".img")
      as (Hok & _ & _).
    apply Hok. reflexivity.
  - destruct (create_outname_string_ext (fun _ => false) Sample.split_last_slash
                (fun a b => a +:+ "/" +:+ b) PyFalse "in/a.tif" "c" ".img")
      as (_ & Hraise & _).
    apply Hraise. reflexivity.
Defined.

Lemma create_outname_no_dot_witness :
  create_outname (fun _ => false) Sample.split_last_slash (fun a b => a +:+ "/" +:+ b)
    (PyStr "out") "tile" "c" (PyStr "")
  = Ok "out/tile_c.tile".
Proof.
  apply (create_outname_no_dot (fun _ => false) Sample.split_last_slash
           (fun a b => a +:+ "/" +:+ b) "out" "tile" "c" "");
    [discriminate | reflexivity | reflexivity | reflexivity].
Defined.

(** ** Listing and stacking rasters *)

Section MoreEffects.

Context `{Toolkit}.

(** What a run of [enf_rastlist] returns. *)
Lemma enf_rastlist_run (filelist : list string) (w : world) :
  ∃ rasters,
    enf_rastlist filelist w = (Ok rasters, w)
    ∧ rasters = List.filter (is_rast (isfile w)) filelist
    ∧ enf_rastlist rasters w = (Ok rasters, w)
    ∧ ∀ raster, In raster rasters →
        ∃ cells meta, to_numpy raster w = (Ok (cells, meta), w).
Proof.
  assert (Hsame : ∀ l, List.filter (fun f => isfile w f && is_rast (isfile w) f) l
                       = List.filter (is_rast (isfile w)) l).
  { intros l. apply filter_ext. intros f. unfold is_rast.
    destruct (isfile w f); reflexivity. }
  eexists. split; [reflexivity|]. rewrite Hsame.
  split; [reflexivity|]. split.
  - unfold enf_rastlist. rewrite Hsame. f_equal. f_equal.
    induction filelist as [|f l IH]; simpl; [reflexivity|].
    destruct (is_rast (isfile w) f) eqn:Hf; simpl; [rewrite Hf, IH|]; auto.
  - intros raster Hin. apply filter_In in Hin as [_ Hrast].
    unfold to_numpy. rewrite Hrast.
    unfold is_rast, isfile in Hrast.
    destruct (files w !! raster) as [f|]; [eauto | discriminate].
Qed.

(** X5: [enf_rastlist] keeps, in their order, exactly the paths that
    [is_rast] accepts and changes nothing on disk; listing its answer
    again gives the same list, and every path it returns loads with
    [to_numpy]. *)
Theorem enf_rastlist_rasters (filelist : list string) (w : world) :
  ∃ rasters,
    enf_rastlist filelist w = (Ok rasters, w)
    ∧ rasters = List.filter (is_rast (isfile w)) filelist
    ∧ enf_rastlist rasters w = (Ok rasters, w)
    ∧ ∀ raster, In raster rasters →
        ∃ cells meta, to_numpy raster w = (Ok (cells, meta), w).
Proof. exact (enf_rastlist_run filelist w). Qed.

(** *** [stack] *)

Lemma set_image_fits (ys xs : nat) (image : grid) :
  has_shape ys xs image → (1 ≤ ys)%nat → set_image ys xs image = Ok image.
Proof.
  intros Hsh Hys. unfold set_image, nrows, ncols.
  rewrite (has_shape_ncols _ _ _ Hsh Hys), (proj1 Hsh).
  unfold broadcasts. rewrite !Nat.eqb_refl. simpl. f_equal.
  apply list_eq. intros r.
  destruct Hsh as [Hlen Hrows].
  destruct (Nat.lt_ge_cases r ys) as [Hr|Hr].
  - unfold tabulate. rewrite lookup_map, lookup_seq_lt by exact Hr. simpl.
    destruct (lookup_lt_is_Some_2 image r) as [row Hrow]; [lia|].
    rewrite Hrow. f_equal.
    pose proof (Forall_lookup_1 _ _ _ _ Hrows Hrow) as Hrl. cbv beta in Hrl.
    apply list_eq. intros c.
    destruct (Nat.lt_ge_cases c xs) as [Hc|Hc].
    + rewrite lookup_map, lookup_seq_lt by exact Hc. simpl.
      destruct (lookup_lt_is_Some_2 row c) as [v Hv]; [lia|].
      rewrite Hv. f_equal.
      apply (bcell_cell 0%Q ys xs); [split; assumption | exact Hr | exact Hc |].
      unfold cell. rewrite Hrow. exact Hv.
    + rewrite (lookup_ge_None_2 row) by lia.
      apply lookup_ge_None_2. rewrite length_map, length_seq. exact Hc.
  - rewrite (lookup_ge_None_2 image) by lia.
    apply lookup_ge_None_2. unfold tabulate. rewrite length_map, length_seq. exact Hr.
Qed.

Lemma to_numpy_coincident (w : world) (ys xs : nat) (path : string) :
  (1 ≤ ys)%nat →
  ext_in (PyStr.last3 path) rast_types = true
  ∧ (∃ f, files w !! path = Some f ∧ has_shape ys xs (rf_cells f)) →
  ∃ cells meta,
    to_numpy path w = (Ok (cells, meta), w)
    ∧ has_shape ys xs cells ∧ Ysize meta = ys ∧ Xsize meta = xs
    ∧ ∃ f, files w !! path = Some f ∧ rf_cells f = cells.
Proof.
  intros Hys [Hext (f & Hf & Hsh)]. unfold to_numpy, is_rast, isfile.
  rewrite Hf, Hext. do 2 eexists. split; [reflexivity|]. simpl.
  split; [exact Hsh|]. split; [apply Hsh|].
  split; [exact (has_shape_ncols _ _ _ Hsh Hys)|]. eauto.
Qed.

Lemma stack_rest_coincident (w : world) (ys xs : nat) (paths : list string)
    (layers : list grid) (meta : metadata) :
  (1 ≤ ys)%nat → coincident_files w ys xs paths →
  ∃ layers' meta',
    stack_rest ys xs paths layers meta w = (Ok (layers ++ layers', meta'), w)
    ∧ Forall2 (fun path layer => ∃ f, files w !! path = Some f ∧ rf_cells f = layer)
        paths layers'
    ∧ (paths = [] → meta' = meta)
    ∧ (∀ p, last paths = Some p → ∃ cells, to_numpy p w = (Ok (cells, meta'), w)).
Proof.
  intros Hys Hall. revert layers meta.
  induction Hall as [|path rest Hpath Hrest IH]; intros layers meta.
  - exists [], meta. simpl. rewrite app_nil_r.
    split; [reflexivity|]. split; [constructor|]. split; [auto|discriminate].
  - destruct (to_numpy_coincident w ys xs path Hys Hpath)
      as (cells & pmeta & Hload & Hsh & _ & _ & Hfile).
    destruct (IH (layers ++ [cells]) pmeta) as (layers' & meta' & Hrun & Hlay & Hnil & Hlast).
    exists (cells :: layers'), meta'.
    split; [|split; [|split]].
    + simpl. unfold bind. rewrite Hload. unfold lift.
      rewrite (set_image_fits _ _ _ Hsh Hys), Hrun, <- app_assoc. reflexivity.
    + constructor; assumption.
    + discriminate.
    + intros p Hp. destruct rest as [|q rest'].
      * simpl in Hp. injection Hp as <-. rewrite (Hnil eq_refl). eauto.
      * apply Hlast. exact Hp.
Qed.

(** X6: for a non-empty list of raster files of one shape, [stack]
    returns one layer per path, each the array of its file in the order
    of the list, together with the metadata of the last raster of the
    list, and leaves the world as it was. *)
Theorem stack_coincident (w : world) (ys xs : nat) (paths : list string) :
  paths ≠ [] → (1 ≤ ys)%nat → coincident_files w ys xs paths →
  ∃ layers meta,
    stack paths w = (Ok (layers, meta), w)
    ∧ Forall2 (fun path layer => ∃ f, files w !! path = Some f ∧ rf_cells f = layer)
        paths layers
    ∧ ∃ p cells, last paths = Some p ∧ to_numpy p w = (Ok (cells, meta), w).
Proof.
  intros Hne Hys Hall. destruct paths as [|path rest]; [contradiction|].
  pose proof (Forall_inv Hall) as Hpath. pose proof (Forall_inv_tail Hall) as Hrest.
  destruct (to_numpy_coincident w ys xs path Hys Hpath)
    as (cells & pmeta & Hload & Hsh & HY & HX & Hfile).
  destruct (stack_rest_coincident w ys xs rest [cells] pmeta Hys Hrest)
    as (layers' & meta' & Hrun & Hlay & Hnil & Hlast).
  exists (cells :: layers'), meta'. split; [|split].
  - unfold stack, bind. rewrite Hload. unfold lift. rewrite HY, HX.
    rewrite (set_image_fits _ _ _ Hsh Hys). exact Hrun.
  - constructor; assumption.
  - destruct rest as [|q rest'].
    + exists path, cells. rewrite (Hnil eq_refl). auto.
    + destruct (last_is_Some (q :: rest')) as [_ Hsome].
      destruct Hsome as [p Hp]; [discriminate|].
      destruct (Hlast p Hp) as [pc Hpc].
      exists p, pc. split; [|exact Hpc].
      change (last (path :: q :: rest')) with (last (q :: rest')). exact Hp.
Qed.

Lemma stack_rest_world (ys xs : nat) (paths : list string) (layers : list grid)
    (meta : metadata) (w w' : world) (r : result (list grid * metadata)) :
  stack_rest ys xs paths layers meta w = (r, w') → w' = w.
Proof.
  revert layers meta. induction paths as [|path rest IH]; intros layers meta Hrun.
  - inversion Hrun. reflexivity.
  - simpl in Hrun. step Hrun.
    + destruct a as [image imeta]. apply to_numpy_world in Hm as ->.
      step Hrun.
      * apply lift_world in Hm as [-> _]. exact (IH _ _ Hrun).
      * apply lift_world in Hm as [-> _]. reflexivity.
    + apply to_numpy_world in Hm as ->. reflexivity.
Qed.

(** X7: [stack] never changes the world; with no path at all it raises
    UnboundLocalError, and so it does when the first path is not an
    existing raster. *)
Theorem stack_reads_only (paths : list string) (w w' : world)
    (r : result (list grid * metadata)) :
  stack paths w = (r, w') →
  w' = w
  ∧ (paths = [] → r = Raise UnboundLocalError)
  ∧ (∀ path rest, paths = path :: rest → is_rast (isfile w) path = false →
       r = Raise UnboundLocalError).
Proof.
  intros Hrun. split; [|split].
  - destruct paths as [|path rest]; [inversion Hrun; reflexivity|].
    unfold stack in Hrun. step Hrun.
    + destruct a as [image imeta]. apply to_numpy_world in Hm as ->.
      step Hrun.
      * apply lift_world in Hm as [-> _]. exact (stack_rest_world _ _ _ _ _ _ _ _ Hrun).
      * apply lift_world in Hm as [-> _]. reflexivity.
    + apply to_numpy_world in Hm as ->. reflexivity.
  - intros ->. inversion Hrun. reflexivity.
  - intros path rest -> Hnot. unfold stack, bind, to_numpy in Hrun.
    rewrite Hnot in Hrun. inversion Hrun. reflexivity.
Qed.

End MoreEffects.

(** ** Batch functions that stop at their first raster *)

Section Batches.

Context `{Toolkit}.

Lemma for_each_raises {A} (l : list A) (body : A → M unit) (w : world) :
  (∀ x, In x l → ∃ e, body x w = (Raise e, w)) →
  ∃ r, for_each l body w = (r, w)
       ∧ (l = [] → r = Ok tt)
       ∧ (∀ x rest, l = x :: rest → body x w = (r, w)).
Proof.
  intros Hbody. destruct l as [|x rest].
  - exists (Ok tt). split; [reflexivity|]. split; [reflexivity|discriminate].
  - destruct (Hbody x (or_introl eq_refl)) as [e He].
    exists (Raise e). simpl. unfold bind. rewrite He.
    split; [reflexivity|]. split; [discriminate|].
    intros x' rest' [= <- <-]. exact He.
Qed.

Lemma range_to_null_errors (above below : option Q) (NoData : Q) (raster : grid) :
  (∃ masked, range_to_null above below NoData raster = Ok masked)
  ∨ (range_to_null above below NoData raster = Raise ValueError
     ∧ py_not above = false ∧ py_not below = false).
Proof.
  unfold range_to_null, below_and_above, array_truth, rbind.
  destruct (py_not above), (py_not below); simpl; eauto.
  destruct (concat _) as [|x [|y rest]]; eauto.
Qed.

(** X8: [set_range_null] never saves anything: the world is left as it
    was; it returns only when no path of the list is an existing raster,
    and otherwise stops at the first raster, with AttributeError (the
    array has no [from_numpy]) or, only when both bounds are given, with
    ValueError from [and] on an array of several cells. *)
Theorem set_range_null_never_saves (set_properties : string → Q → M unit)
    (filelist : list string) (above below : option Q) (NoData : Q) (w : world) :
  ∃ r,
    set_range_null set_properties filelist above below NoData w = (r, w)
    ∧ (List.filter (is_rast (isfile w)) filelist = [] → r = Ok tt)
    ∧ (List.filter (is_rast (isfile w)) filelist ≠ [] →
       r = Raise AttributeError
       ∨ (r = Raise ValueError ∧ py_not above = false ∧ py_not below = false)).
Proof.
  destruct (enf_rastlist_run filelist w) as (rasters & Henf & Hfilter & _ & Hload).
  rewrite <- Hfilter.
  set (body := fun filename : string =>
         bind (to_numpy filename) (fun '(raster, meta) =>
         bind (lift (range_to_null above below NoData raster)) (fun raster =>
         bind (raise (A := unit) AttributeError) (fun _ =>
         set_properties filename NoData)))).
  assert (Hbody : ∀ x, In x rasters →
            body x w = (Raise AttributeError, w)
            ∨ (body x w = (Raise ValueError, w)
               ∧ py_not above = false ∧ py_not below = false)).
  { intros x Hx. destruct (Hload x Hx) as (cells & meta & Hx').
    unfold body, bind. rewrite Hx'. unfold lift.
    destruct (range_to_null_errors above below NoData cells) as [[masked ->]|(-> & Ha & Hb)];
      auto. }
  destruct (for_each_raises rasters body w) as (r & Hrun & Hnil & Hcons).
  { intros x Hx. destruct (Hbody x Hx) as [Hb|[Hb _]]; eauto. }
  exists r. split; [|split].
  - unfold set_range_null, bind. rewrite Henf. exact Hrun.
  - exact Hnil.
  - intros Hne. destruct rasters as [|x rest]; [contradiction|].
    specialize (Hcons x rest eq_refl).
    destruct (Hbody x (or_introl eq_refl)) as [Hb|(Hb & Ha & Hbl)];
      rewrite Hb in Hcons; inversion Hcons; auto.
Qed.

(** X9: [clip_to_shape] never clips anything.  After it has listed the
    rasters and made sure of the output directory, it calls
    [create_outname] without [ext], so it stops at the first raster of the
    list with AttributeError, in the world the directory step left; it
    returns only when no path of the list is an existing raster, and an
    exception of the directory step ends the run on its own. *)
Theorem clip_to_shape_never_clips (exists_on_disk : world → string → bool)
    (make_dirs : string → M unit)
    (clip_geometry : string → string → string → M unit)
    (extract_save : string → string → M unit)
    (rasterlist : list string) (shapefile : string) (outdir : str_or_false) (w : world) :
  let dirs := ensure_outdir exists_on_disk make_dirs outdir w in
  ∃ r,
    clip_to_shape exists_on_disk make_dirs clip_geometry extract_save
      rasterlist shapefile outdir w = (r, dirs.2)
    ∧ (∀ e, dirs.1 = Raise e → r = Raise e)
    ∧ (dirs.1 = Ok tt →
       (List.filter (is_rast (isfile w)) rasterlist = [] → r = Ok tt)
       ∧ (List.filter (is_rast (isfile w)) rasterlist ≠ [] → r = Raise AttributeError)).
Proof.
  intros dirs.
  destruct (enf_rastlist_run rasterlist w) as (rasters & Henf & Hfilter & _ & _).
  rewrite <- Hfilter.
  set (body := fun raster : string =>
         bind (fun w0 => (create_outname (isfile w0) path_split path_join outdir raster
                            "c" PyFalse, w0))
           (fun outname => bind (clip_geometry raster outname shapefile)
                             (fun _ => extract_save outname shapefile))).
  assert (Hbody : ∀ x w0, body x w0 = (Raise AttributeError, w0)) by reflexivity.
  assert (Hrun : clip_to_shape exists_on_disk make_dirs clip_geometry extract_save
                   rasterlist shapefile outdir w
                 = match dirs.1 with
                   | Ok _ => for_each rasters body dirs.2
                   | Raise e => (Raise e, dirs.2)
                   end).
  { unfold clip_to_shape, bind at 1. rewrite Henf. unfold bind at 1. fold dirs.
    destruct dirs as [[[]|e] w1]; reflexivity. }
  rewrite Hrun.
  destruct (for_each_raises rasters body dirs.2) as (r & Hloop & Hnil & Hcons).
  { intros x _. eauto. }
  destruct dirs.1 as [[]|e] eqn:Hdirs.
  - exists r. split; [exact Hloop|]. split; [discriminate|].
    intros _. split; [exact Hnil|].
    intros Hne. destruct rasters as [|x rest]; [contradiction|].
    specialize (Hcons x rest eq_refl). rewrite Hbody in Hcons.
    inversion Hcons. reflexivity.
  - exists (Raise e). split; [reflexivity|]. split; [|discriminate].
    intros e' [= ->]. reflexivity.
Qed.

Lemma quiet_same_calls {A} (m : M A) :
  (∀ w r w', m w = (r, w') → calls w' = calls w) → quiet m.
Proof.
  intros Hsame w r w' Hrun. exists []. rewrite app_nil_r.
  split; [exact (Hsame _ _ _ Hrun) | reflexivity].
Qed.

Lemma quiet_bind {A B} (m : M A) (k : A → M B) :
  quiet m → (∀ a, quiet (k a)) → quiet (bind m k).
Proof.
  intros Hm Hk w r w' Hrun.
  apply bind_inv in Hrun as [(a & w1 & Hrun1 & Hrun2) | (e & Hrun1 & _)].
  - destruct (Hm _ _ _ Hrun1) as (l1 & Hl1 & Hq1).
    destruct (Hk a _ _ _ Hrun2) as (l2 & Hl2 & Hq2).
    exists (l1 ++ l2). rewrite Hl2, Hl1, <- app_assoc. split; [reflexivity|].
    rewrite forallb_app, Hq1, Hq2. reflexivity.
  - exact (Hm _ _ _ Hrun1).
Qed.

Lemma quiet_bind_stop {A B} (m : M A) (k : A → M B) :
  quiet m → always_raises m → quiet (bind m k).
Proof.
  intros Hm Hstop w r w' Hrun.
  apply bind_inv in Hrun as [(a & w1 & Hrun1 & Hrun2) | (e & Hrun1 & _)].
  - destruct (Hstop _ _ _ Hrun1) as [e He]. discriminate.
  - exact (Hm _ _ _ Hrun1).
Qed.

Lemma always_raises_bind_l {A B} (m : M A) (k : A → M B) :
  always_raises m → always_raises (bind m k).
Proof.
  intros Hstop w r w' Hrun.
  apply bind_inv in Hrun as [(a & w1 & Hrun1 & Hrun2) | (e & Hrun1 & ->)].
  - destruct (Hstop _ _ _ Hrun1) as [e He]. discriminate.
  - eauto.
Qed.

Lemma always_raises_bind_r {A B} (m : M A) (k : A → M B) :
  (∀ a, always_raises (k a)) → always_raises (bind m k).
Proof.
  intros Hstop w r w' Hrun.
  apply bind_inv in Hrun as [(a & w1 & Hrun1 & Hrun2) | (e & Hrun1 & ->)].
  - exact (Hstop a _ _ _ Hrun2).
  - eauto.
Qed.

Lemma quiet_to_numpy (raster : string) : quiet (to_numpy raster).
Proof.
  apply quiet_same_calls. intros w r w' Hrun.
  apply to_numpy_world in Hrun as ->. reflexivity.
Qed.

Lemma quiet_lift {A} (x : result A) : quiet (lift x).
Proof. apply quiet_same_calls. intros w r w' [= <- <-]. reflexivity. Qed.

Lemma quiet_ret {A} (x : A) : quiet (ret x).
Proof. apply quiet_same_calls. intros w r w' [= <- <-]. reflexivity. Qed.

Lemma quiet_raise {A} (e : exn) : quiet (raise (A := A) e).
Proof. apply quiet_same_calls. intros w r w' [= <- <-]. reflexivity. Qed.

Lemma quiet_project (rastname snap_raster tempname : string) (resamp_type : str_or_false) :
  quiet (project rastname snap_raster tempname resamp_type).
Proof.
  intros w r w' Hrun. unfold project in Hrun.
  exists [Project_call rastname tempname]. split; [|reflexivity].
  destruct (core_project _ rastname snap_raster resamp_type); inversion Hrun; reflexivity.
Qed.

Lemma quiet_resample (rastname tempname : string) (cell_size : Q * Q) (r0 : string) :
  quiet (resample rastname tempname cell_size r0).
Proof.
  intros w r w' Hrun. unfold resample in Hrun.
  exists [Resample_call rastname tempname]. split; [|reflexivity].
  destruct (Resample_management _ rastname cell_size r0); inversion Hrun; reflexivity.
Qed.

(** Every run of the loop body of [spatially_match] ends in an exception,
    after projecting or resampling calls at most. *)
Lemma match_one_raises (snap_raster : string) (snap_meta : metadata)
    (outdir tempdir : string) (numtype : str_or_false) (NoData : option Q)
    (resamp_type : str_or_false) (usetemp : bool) (rastname : string) :
  always_raises (match_one snap_raster snap_meta outdir tempdir numtype NoData
                   resamp_type usetemp rastname)
  ∧ quiet (match_one snap_raster snap_meta outdir tempdir numtype NoData
             resamp_type usetemp rastname).
Proof.
  unfold match_one. split.
  - apply always_raises_bind_r. intros [cells meta].
    destruct (path_split rastname) as [head tail].
    apply always_raises_bind_r. intros usetemp1.
    apply always_raises_bind_r. intros differs.
    apply always_raises_bind_r. intros usetemp2.
    apply always_raises_bind_l. intros w r w' [= <- <-]. eauto.
  - apply quiet_bind; [apply quiet_to_numpy|]. intros [cells meta].
    destruct (path_split rastname) as [head tail].
    apply quiet_bind.
    { destruct (negb _); [|apply quiet_ret].
      apply quiet_bind; [apply quiet_project | intros; apply quiet_ret]. }
    intros usetemp1.
    apply quiet_bind; [apply quiet_lift|]. intros differs.
    apply quiet_bind.
    { destruct differs; [|apply quiet_ret].
      destruct resamp_type as [|r0]; [apply quiet_raise|].
      destruct (truthy (PyStr r0)); [|apply quiet_raise].
      apply quiet_bind; [apply quiet_resample | intros; apply quiet_ret]. }
    intros usetemp2.
    apply quiet_bind_stop.
    + apply quiet_same_calls. intros w r w' [= <- <-]. reflexivity.
    + intros w r w' [= <- <-]. eauto.
Qed.

Lemma match_all_quiet (snap_raster : string) (snap_meta : metadata)
    (outdir tempdir : string) (numtype : str_or_false) (NoData : option Q)
    (resamp_type : str_or_false) (usetemp : bool) (rasterlist : list string) :
  quiet (match_all snap_raster snap_meta outdir tempdir numtype NoData resamp_type
           usetemp rasterlist)
  ∧ (rasterlist ≠ [] →
     always_raises (match_all snap_raster snap_meta outdir tempdir numtype NoData
                      resamp_type usetemp rasterlist)).
Proof.
  destruct rasterlist as [|rastname rest]; simpl.
  - split; [apply quiet_ret | contradiction].
  - split.
    + apply quiet_bind_stop; apply match_one_raises.
    + intros _. apply always_raises_bind_l. apply match_one_raises.
Qed.

(** X10: [spatially_match] never clips or saves a raster, whatever its
    arguments (the only arcpy calls it can make project or resample), and
    it returns only when no path of the list is an existing raster: with
    one in the list the first round of the loop ends in an exception. *)
Theorem spatially_match_never_aligns (snap_raster : string) (rasterlist : list string)
    (outdir : string) (numtype : str_or_false) (NoData : option Q)
    (resamp_type : str_or_false) (w w' : world) (r : result unit) :
  spatially_match snap_raster rasterlist outdir numtype NoData resamp_type w = (r, w') →
  (∃ l, calls w' = calls w ++ l ∧ forallb (fun c => negb (clips_or_saves c)) l = true)
  ∧ (r = Ok tt → List.filter (is_rast (isfile w)) rasterlist = []).
Proof.
  unfold spatially_match. intros Hrun.
  destruct (enf_rastlist_run rasterlist w) as (rasters & Henf & Hfilter & _ & _).
  rewrite <- Hfilter.
  unfold bind at 1 in Hrun. rewrite Henf in Hrun.
  set (rest := bind (to_numpy snap_raster) _) in Hrun.
  assert (Hquiet : quiet (bind (modify (set_snapRaster snap_raster)) (fun _ => rest))).
  { apply quiet_bind.
    - apply quiet_same_calls. intros w0 r0 w1 [= <- <-]. reflexivity.
    - intros _. unfold rest. apply quiet_bind; [apply quiet_to_numpy|].
      intros [cells snap_meta]. apply quiet_bind; [apply match_all_quiet|].
      intros _. apply quiet_same_calls. intros w0 r0 w1 [= <- <-]. reflexivity. }
  split; [exact (Hquiet _ _ _ Hrun)|].
  intros ->. destruct rasters as [|rastname others]; [reflexivity|]. exfalso.
  assert (Hstop : always_raises
                    (bind (modify (set_snapRaster snap_raster)) (fun _ => rest))).
  { apply always_raises_bind_r. intros _. unfold rest.
    apply always_raises_bind_r. intros [cells snap_meta].
    apply always_raises_bind_l. apply match_all_quiet. discriminate. }
  destruct (Hstop _ _ _ Hrun) as [e He]. discriminate.
Qed.

End Batches.

(** ** The paste of [clip_and_snap] *)

(** X11: where the paste puts a raster that lies inside the reference.
    The buffer has the reference's rows and columns; cell [(i, j)] of the
    raster is at row [Ysize snap - Ysize - yoffset + i] and at column
    [Xsize snap - Xsize - xoffset + j] (both counted from the far edge of
    the reference); every other cell holds the raster's own NoData
    value. *)
Theorem paste_places_raster (snap_meta meta : metadata) (raster : grid)
    (xoffset yoffset : Z) :
  has_shape (Ysize meta) (Xsize meta) raster → (1 ≤ Ysize meta)%nat →
  (0 ≤ xoffset)%Z → (xoffset + Z.of_nat (Xsize meta) ≤ Z.of_nat (Xsize snap_meta))%Z →
  (0 ≤ yoffset)%Z → (yoffset + Z.of_nat (Ysize meta) ≤ Z.of_nat (Ysize snap_meta))%Z →
  ∃ newraster,
    paste snap_meta meta raster xoffset yoffset = Ok newraster
    ∧ nrows newraster = Ysize snap_meta
    ∧ ncols newraster = Xsize snap_meta
    ∧ (∀ i j v, cell raster i j = Some v →
         cell newraster
           (Ysize snap_meta - Ysize meta - Z.to_nat yoffset + i)
           (Xsize snap_meta - Xsize meta - Z.to_nat xoffset + j) = Some v)
    ∧ (∀ r c, (r < Ysize snap_meta)%nat → (c < Xsize snap_meta)%nat →
         ¬ ((Ysize snap_meta - Ysize meta - Z.to_nat yoffset ≤ r
             < Ysize snap_meta - Z.to_nat yoffset)%nat
            ∧ (Xsize snap_meta - Xsize meta - Z.to_nat xoffset ≤ c
               < Xsize snap_meta - Z.to_nat xoffset)%nat) →
         cell newraster r c = Some (NoData_Value meta)).
Proof. apply paste_inside. Qed.

Lemma paste_places_raster_witness :
  let snap_meta := {| Xsize := 3; Ysize := 2; cellWidth := 1; cellHeight := 1;
                      Xmin := 0; Ymin := 0; projection := "UTM";
                      NoData_Value := -9999 |} in
  let meta := {| Xsize := 2; Ysize := 1; cellWidth := 1; cellHeight := 1;
                 Xmin := 0; Ymin := 0; projection := "UTM"; NoData_Value := -1 |} in
  ∃ newraster,
    paste snap_meta meta [[5; 6]]%Q 0 0 = Ok newraster
    ∧ cell newraster 1 1 = Some 5%Q ∧ cell newraster 1 2 = Some 6%Q
    ∧ cell newraster 0 0 = Some (-1)%Q.
Proof.
  intros snap_meta meta.
  destruct (paste_places_raster snap_meta meta [[5; 6]]%Q 0 0)
    as (newraster & Hpaste & _ & _ & Hin & Hout).
  - split; [reflexivity | repeat constructor].
  - simpl; lia.
  - lia.
  - simpl; lia.
  - lia.
  - simpl; lia.
  - exists newraster. split; [exact Hpaste|].
    split; [exact (Hin 0%nat 0%nat 5%Q eq_refl)|].
    split; [exact (Hin 0%nat 1%nat 6%Q eq_refl)|].
    apply Hout; simpl; lia.
Defined.

Lemma imap_replicate_lookup {A B} (f : nat → A → B) (n : nat) (x : A) (l : list B) :
  length l = n → (∀ i y, l !! i = Some y → f i x = y) → imap f (replicate n x) = l.
Proof.
  intros Hlen Hl. apply list_eq. intros i.
  rewrite list_lookup_imap.
  destruct (l !! i) as [y|] eqn:Hy.
  - rewrite lookup_replicate_2 by (apply lookup_lt_Some in Hy; lia).
    simpl. f_equal. apply Hl. exact Hy.
  - rewrite (lookup_ge_None_2 (replicate n x)); [reflexivity|].
    rewrite length_replicate. apply lookup_ge_None_1 in Hy. lia.
Qed.

(** X12: pasting a raster that already has the reference's shape, at
    offsets zero, gives the raster back unchanged. *)
Theorem paste_coincident (snap_meta meta : metadata) (raster : grid) :
  has_shape (Ysize snap_meta) (Xsize snap_meta) raster →
  Ysize meta = Ysize snap_meta → Xsize meta = Xsize snap_meta →
  (1 ≤ Ysize snap_meta)%nat →
  paste snap_meta meta raster 0 0 = Ok raster.
Proof.
  intros Hsh HY HX HsY. unfold paste, slice_assign.
  rewrite nrows_zeros_plus, ncols_zeros_plus by exact HsY.
  rewrite HY, HX.
  rewrite !slice_indices_inside by lia.
  replace (Z.to_nat (Z.of_nat (Ysize snap_meta) - Z.of_nat (Ysize snap_meta) - 0)) with 0%nat
    by lia.
  replace (Z.to_nat (Z.of_nat (Xsize snap_meta) - Z.of_nat (Xsize snap_meta) - 0)) with 0%nat
    by lia.
  replace (Z.to_nat (Z.of_nat (Ysize snap_meta) - 0 - (Z.of_nat (Ysize snap_meta)
                       - Z.of_nat (Ysize snap_meta) - 0))) with (Ysize snap_meta) by lia.
  replace (Z.to_nat (Z.of_nat (Xsize snap_meta) - 0 - (Z.of_nat (Xsize snap_meta)
                       - Z.of_nat (Xsize snap_meta) - 0))) with (Xsize snap_meta) by lia.
  unfold nrows, ncols.
  rewrite (has_shape_ncols _ _ _ Hsh HsY), (proj1 Hsh).
  unfold broadcasts. rewrite !Nat.eqb_refl. simpl. f_equal.
  unfold zeros_plus.
  apply imap_replicate_lookup; [apply Hsh|].
  intros r row Hrow.
  pose proof (Forall_lookup_1 _ _ _ _ (proj2 Hsh) Hrow) as Hrl. cbv beta in Hrl.
  pose proof (lookup_lt_Some _ _ _ Hrow) as Hr. rewrite (proj1 Hsh) in Hr.
  apply imap_replicate_lookup; [exact Hrl|].
  intros c v Hv.
  pose proof (lookup_lt_Some _ _ _ Hv) as Hc. rewrite Hrl in Hc.
  rewrite in_window_true by lia.
  rewrite !Nat.sub_0_r.
  apply (bcell_cell 0%Q _ _ _ _ _ _ Hsh Hr Hc).
  unfold cell. rewrite Hrow. exact Hv.
Qed.

Lemma paste_coincident_witness :
  let meta := {| Xsize := 2; Ysize := 2; cellWidth := 1; cellHeight := 1;
                 Xmin := 0; Ymin := 0; projection := "UTM"; NoData_Value := -9999 |} in
  paste meta meta [[1; 2]; [3; 4]]%Q 0 0 = Ok [[1; 2]; [3; 4]]%Q.
Proof.
  intros meta. apply paste_coincident.
  - split; [reflexivity | repeat constructor].
  - reflexivity.
  - reflexivity.
  - simpl; lia.
Defined.

(** ** The overlap grid *)

Lemma Forall_map_map {A B} (P : B → Prop) (f : A → B) (a : list (list A)) :
  (∀ x, P (f x)) → Forall (Forall P) (map (map f) a).
Proof.
  intros Hf. apply Forall_forall. intros row Hrow.
  apply list_elem_of_In, in_map_iff in Hrow as (row0 & <- & _).
  apply Forall_forall. intros y Hy.
  apply list_elem_of_In, in_map_iff in Hy as (x & <- & _). apply Hf.
Qed.

(** X13: whenever [find_overlap]'s grid is computed, every cell of it is
    0 or 1. *)
Theorem overlap_Workmatrix_binary (a b : grid) (NoData_A NoData_B : Q) (Workmatrix : grid) :
  overlap_Workmatrix a NoData_A b NoData_B = Ok Workmatrix →
  Forall (Forall (fun x => x = 0%Q ∨ x = 1%Q)) Workmatrix.
Proof.
  unfold overlap_Workmatrix, rbind. intros Hrun.
  destruct (np_add _ _) as [sum|e]; [|discriminate].
  injection Hrun as <-. unfold mask_set. rewrite map_map.
  apply Forall_forall. intros row Hrow.
  apply list_elem_of_In, in_map_iff in Hrow as (row0 & <- & _).
  rewrite map_map.
  apply Forall_forall. intros y Hy.
  apply list_elem_of_In, in_map_iff in Hy as (x & <- & _).
  unfold Qlt_bool.
  destruct (Qle_bool 2 x) eqn:Hx; cbn [negb]; [rewrite Hx; auto|].
  left. reflexivity.
Qed.

Lemma overlap_Workmatrix_binary_witness :
  Forall (Forall (fun x => x = 0%Q ∨ x = 1%Q)) [[1; 1]; [1; 0]]%Q.
Proof.
  apply (overlap_Workmatrix_binary [[255; 10]; [255; 1 # 2]]%Q [[255; 255]; [3; 1 # 2]]%Q
           255 255).
  vm_compute. reflexivity.
Defined.

(** X14: the rule the overlap grid follows on two arrays of one shape: the
    grid has that shape, and a cell is 1 exactly when the sum of the two
    cells, each counted as 1 when it lies in its raster's NoData band and
    at its own value otherwise, is at least 2.  So a cell where both
    rasters are NoData is 1, and a cell where both hold small data values
    is 0. *)
Theorem overlap_Workmatrix_rule (a b : grid) (NoData_A NoData_B : Q) (R C : nat) :
  has_shape R C a → has_shape R C b → (1 ≤ R)%nat →
  ∃ Workmatrix,
    overlap_Workmatrix a NoData_A b NoData_B = Ok Workmatrix
    ∧ has_shape R C Workmatrix
    ∧ ∀ r c x y, cell a r c = Some x → cell b r c = Some y →
        cell Workmatrix r c
        = Some (if Qle_bool 2 ((if in_nodata_band NoData_A x then 1 else x)
                               + (if in_nodata_band NoData_B y then 1 else y))
                then 1%Q else 0%Q).
Proof.
  intros Ha Hb HR.
  destruct (overlap_Workmatrix_cell a b NoData_A NoData_B R C Ha Hb HR)
    as (W & Hrun & Hcells).
  exists W. split; [exact Hrun|]. split; [|exact Hcells].
  unfold overlap_Workmatrix, np_add in Hrun.
  pose proof (has_shape_mask_set (in_nodata_band NoData_A) 1 _ _ _ Ha) as Hma.
  pose proof (has_shape_mask_set (in_nodata_band NoData_B) 1 _ _ _ Hb) as Hmb.
  unfold nrows, ncols in Hrun.
  rewrite (has_shape_ncols _ _ _ Hma HR), (has_shape_ncols _ _ _ Hmb HR) in Hrun.
  rewrite (proj1 Hma), (proj1 Hmb) in Hrun.
  unfold broadcast_axis in Hrun. rewrite !Nat.eqb_refl in Hrun.
  simpl rbind in Hrun. injection Hrun as <-.
  repeat apply has_shape_mask_set. apply has_shape_tabulate.
Qed.

Lemma overlap_Workmatrix_rule_witness :
  ∃ Workmatrix,
    overlap_Workmatrix [[255; 3]]%Q 255 [[255; 1 # 2]]%Q 255 = Ok Workmatrix
    ∧ cell Workmatrix 0 0 = Some 1%Q ∧ cell Workmatrix 0 1 = Some 1%Q.
Proof.
  destruct (overlap_Workmatrix_rule [[255; 3]]%Q [[255; 1 # 2]]%Q 255 255 1 2)
    as (W & Hrun & _ & Hcells).
  - split; [reflexivity | repeat constructor].
  - split; [reflexivity | repeat constructor].
  - lia.
  - exists W. split; [exact Hrun|].
    split; [exact (Hcells 0%nat 0%nat 255%Q 255%Q eq_refl eq_refl)|].
    exact (Hcells 0%nat 1%nat 3%Q (1 # 2)%Q eq_refl eq_refl).
Defined.

(** ** The offsets of [clip_and_snap] *)

From Stdlib Require Import Lqa.

Lemma Qfloor_plus_half (k : Z) : Qfloor (inject_Z k + (1 # 2)) = k.
Proof.
  unfold Qfloor, Qplus, inject_Z. simpl.
  symmetry. apply (Z.div_unique _ _ _ 1); lia.
Qed.

Lemma py_round_inject_Z (q : Q) (k : Z) : (q == inject_Z k)%Q → py_round q = k.
Proof.
  intros Hq. unfold py_round.
  destruct (Qle_bool 0 q) eqn:Hsign.
  - rewrite (Qfloor_comp (q + (1 # 2)) (inject_Z k + (1 # 2))) by (rewrite Hq; reflexivity).
    apply Qfloor_plus_half.
  - rewrite (Qfloor_comp (- q + (1 # 2)) (inject_Z (- k) + (1 # 2))).
    + rewrite Qfloor_plus_half. lia.
    + rewrite Hq, inject_Z_opp. reflexivity.
Qed.

Lemma py_round_near (q : Q) :
  (inject_Z (py_round q) - (1 # 2) <= q)%Q ∧ (q <= inject_Z (py_round q) + (1 # 2))%Q.
Proof.
  unfold py_round. destruct (Qle_bool 0 q).
  - pose proof (Qfloor_le (q + (1 # 2))) as Hle.
    pose proof (Qlt_floor (q + (1 # 2))) as Hlt.
    rewrite inject_Z_plus in Hlt. change (inject_Z 1) with 1%Q in Hlt.
    split; lra.
  - pose proof (Qfloor_le (- q + (1 # 2))) as Hle.
    pose proof (Qlt_floor (- q + (1 # 2))) as Hlt.
    rewrite inject_Z_plus in Hlt. change (inject_Z 1) with 1%Q in Hlt.
    rewrite inject_Z_opp. split; lra.
Qed.

Lemma Qeq_bool_false (x y : Q) : ¬ (x == y)%Q → Qeq_bool x y = false.
Proof.
  intros Hne. destruct (Qeq_bool x y) eqn:Heq; [|reflexivity].
  apply Qeq_bool_iff in Heq. contradiction.
Qed.

(** X15: when the raster's lower-left corner lies a whole number of its
    own cells from the reference's corner, [kx] cells in x and [ky] in y
    (negative when it lies left of or below the reference), the offsets
    found are exactly [(kx, ky)]. *)
Theorem offsets_on_grid (snap_meta meta : metadata) (kx ky : Z) :
  ¬ (cellWidth meta == 0)%Q → ¬ (cellHeight meta == 0)%Q →
  (Xmin meta == Xmin snap_meta + inject_Z kx * cellWidth meta)%Q →
  (Ymin meta == Ymin snap_meta + inject_Z ky * cellHeight meta)%Q →
  offsets snap_meta meta = Ok (kx, ky).
Proof.
  intros Hcw Hch Hx Hy. unfold offsets.
  rewrite (Qeq_bool_false _ _ Hcw), (Qeq_bool_false _ _ Hch).
  rewrite (py_round_inject_Z _ kx), (py_round_inject_Z _ ky); [reflexivity | |].
  - rewrite Hy. field. exact Hch.
  - rewrite Hx. field. exact Hcw.
Qed.

Lemma offsets_on_grid_witness :
  offsets
    {| Xsize := 4; Ysize := 4; cellWidth := 30; cellHeight := 30;
       Xmin := 100; Ymin := 200; projection := "UTM"; NoData_Value := 0 |}
    {| Xsize := 2; Ysize := 2; cellWidth := 30; cellHeight := 30;
       Xmin := 160; Ymin := 170; projection := "UTM"; NoData_Value := 0 |}
  = Ok (2%Z, (-1)%Z).
Proof.
  apply offsets_on_grid; simpl; try discriminate; reflexivity.
Defined.

(** X16: for a raster with non-zero cell sizes the offsets are always
    found, and each is within half a cell of the distance between the two
    lower-left corners measured in the raster's cells. *)
Theorem offsets_nearest (snap_meta meta : metadata) :
  ¬ (cellWidth meta == 0)%Q → ¬ (cellHeight meta == 0)%Q →
  ∃ xoffset yoffset,
    offsets snap_meta meta = Ok (xoffset, yoffset)
    ∧ (inject_Z xoffset - (1 # 2) <= (Xmin meta - Xmin snap_meta) / cellWidth meta)%Q
    ∧ ((Xmin meta - Xmin snap_meta) / cellWidth meta <= inject_Z xoffset + (1 # 2))%Q
    ∧ (inject_Z yoffset - (1 # 2) <= (Ymin meta - Ymin snap_meta) / cellHeight meta)%Q
    ∧ ((Ymin meta - Ymin snap_meta) / cellHeight meta <= inject_Z yoffset + (1 # 2))%Q.
Proof.
  intros Hcw Hch. unfold offsets.
  rewrite (Qeq_bool_false _ _ Hcw), (Qeq_bool_false _ _ Hch).
  do 2 eexists. split; [reflexivity|].
  destruct (py_round_near ((Xmin meta - Xmin snap_meta) / cellWidth meta)) as [Hx1 Hx2].
  destruct (py_round_near ((Ymin meta - Ymin snap_meta) / cellHeight meta)) as [Hy1 Hy2].
  auto.
Qed.

Lemma offsets_nearest_witness :
  ∃ xoffset yoffset,
    offsets
      {| Xsize := 4; Ysize := 4; cellWidth := 30; cellHeight := 30;
         Xmin := 100; Ymin := 200; projection := "UTM"; NoData_Value := 0 |}
      {| Xsize := 2; Ysize := 2; cellWidth := 30; cellHeight := 30;
         Xmin := 150; Ymin := 190; projection := "UTM"; NoData_Value := 0 |}
    = Ok (xoffset, yoffset).
Proof.
  destruct (offsets_nearest
              {| Xsize := 4; Ysize := 4; cellWidth := 30; cellHeight := 30;
                 Xmin := 100; Ymin := 200; projection := "UTM"; NoData_Value := 0 |}
              {| Xsize := 2; Ysize := 2; cellWidth := 30; cellHeight := 30;
                 Xmin := 150; Ymin := 190; projection := "UTM"; NoData_Value := 0 |})
    as (xo & yo & Hoff & _); [discriminate | discriminate |].
  exists xo, yo. exact Hoff.
Defined.

(** ** [identify] *)

Lemma prefix_prefix (k m : nat) (s : string) :
  (k ≤ m)%nat → substring 0 k (substring 0 m s) = substring 0 k s.
Proof.
  revert m s. induction k as [|k IH]; intros m s Hkm.
  - destruct (substring 0 m s), s; reflexivity.
  - destruct m as [|m]; [lia|].
    destruct s as [|c s]; [reflexivity|]. simpl.
    rewrite IH by lia. reflexivity.
Qed.

(** X17: [identify] looks at the first six characters of the name and at
    nothing else. *)
Theorem identify_first_six (name : string) :
  identify name = identify (py_prefix 6 name).
Proof.
  unfold identify, py_prefix. rewrite !prefix_prefix by lia. reflexivity.
Qed.

Lemma any_eq_In (s : string) (l : list string) : any_eq s l = true ↔ In s l.
Proof.
  unfold any_eq. rewrite existsb_exists. split.
  - intros (x & Hx & Heq). apply String.eqb_eq in Heq. subst. exact Hx.
  - intros Hin. exists s. split; [exact Hin | apply String.eqb_refl].
Qed.

Lemma key_of_prefix (m : nat) (name p : string) :
  (2 ≤ m)%nat → py_prefix m name = p → py_prefix 2 name = substring 0 2 p.
Proof.
  unfold py_prefix. intros Hm <-. symmetry. apply prefix_prefix. exact Hm.
Qed.

Section IdentifyTests.

Variable name : string.

Lemma landsat_key :
  any_eq (py_prefix 2 name) ["LC"; "LO"; "LT"; "LE"; "LM"] = true →
  test_of_key (py_prefix 2 name) = 1%nat.
Proof. unfold test_of_key. intros ->. reflexivity. Qed.

Lemma modis_key :
  any_eq (py_prefix 3 name) ["MCD"; "MOD"; "MYD"] = true →
  test_of_key (py_prefix 2 name) = 2%nat.
Proof.
  rewrite any_eq_In. simpl.
  intros [Hp|[Hp|[Hp|[]]]]; symmetry in Hp;
    rewrite (key_of_prefix 3 name _ ltac:(lia) Hp); reflexivity.
Qed.

Lemma trmm_key :
  any_eq (py_prefix 4 name)
    ["3A11"; "3A12"; "3A25"; "3A26"; "3B31"; "3A46"; "3B42"; "3B43"] = true →
  test_of_key (py_prefix 2 name) = 3%nat.
Proof.
  rewrite any_eq_In. simpl.
  intros [Hp|[Hp|[Hp|[Hp|[Hp|[Hp|[Hp|[Hp|[]]]]]]]]]; symmetry in Hp;
    rewrite (key_of_prefix 4 name _ ltac:(lia) Hp); reflexivity.
Qed.

Lemma eqb_key (m : nat) (p : string) (n : nat) :
  (2 ≤ m)%nat → test_of_key (substring 0 2 p) = n →
  String.eqb (py_prefix m name) p = true →
  test_of_key (py_prefix 2 name) = n.
Proof.
  intros Hm Hn Heq. apply String.eqb_eq in Heq.
  rewrite (key_of_prefix m name p Hm Heq). exact Hn.
Qed.

(** X18: the order of the tests in [identify] plays no part: each label is
    returned exactly for the names that pass its own test (Landsat for a
    name that starts with LC, LO, LT, LE or LM; MODIS for MCD, MOD or MYD;
    TRMM for one of the eight product codes; WELD_CONUS for CONUS; WELD_AK
    for Alaska; AMSR_E for AMSR_E; ASTER for AST; AIRS for AIR), and False
    for the names that pass none. *)
Theorem identify_by_prefix :
  (identify name = PyStr "Landsat"
   ↔ any_eq (py_prefix 2 name) ["LC"; "LO"; "LT"; "LE"; "LM"] = true)
  ∧ (identify name = PyStr "MODIS"
     ↔ any_eq (py_prefix 3 name) ["MCD"; "MOD"; "MYD"] = true)
  ∧ (identify name = PyStr "TRMM"
     ↔ any_eq (py_prefix 4 name)
         ["3A11"; "3A12"; "3A25"; "3A26"; "3B31"; "3A46"; "3B42"; "3B43"] = true)
  ∧ (identify name = PyStr "WELD_CONUS" ↔ py_prefix 5 name = "CONUS")
  ∧ (identify name = PyStr "WELD_AK" ↔ py_prefix 6 name = "Alaska")
  ∧ (identify name = PyStr "AMSR_E" ↔ py_prefix 6 name = "AMSR_E")
  ∧ (identify name = PyStr "ASTER" ↔ py_prefix 3 name = "AST")
  ∧ (identify name = PyStr "AIRS" ↔ py_prefix 3 name = "AIR")
  ∧ (identify name = PyFalse
     ↔ any_eq (py_prefix 2 name) ["LC"; "LO"; "LT"; "LE"; "LM"] = false
       ∧ any_eq (py_prefix 3 name) ["MCD"; "MOD"; "MYD"] = false
       ∧ any_eq (py_prefix 4 name)
           ["3A11"; "3A12"; "3A25"; "3A26"; "3B31"; "3A46"; "3B42"; "3B43"] = false
       ∧ String.eqb (py_prefix 5 name) "CONUS" = false
       ∧ String.eqb (py_prefix 6 name) "Alaska" = false
       ∧ String.eqb (py_prefix 6 name) "AMSR_E" = false
       ∧ String.eqb (py_prefix 3 name) "AST" = false
       ∧ String.eqb (py_prefix 3 name) "AIR" = false).
Proof.
  rewrite <- !String.eqb_eq.
  pose proof landsat_key as K1. pose proof modis_key as K2. pose proof trmm_key as K3.
  pose proof (eqb_key 5 "CONUS" 4 ltac:(lia) eq_refl) as K4.
  pose proof (eqb_key 6 "Alaska" 5 ltac:(lia) eq_refl) as K5.
  pose proof (eqb_key 6 "AMSR_E" 6 ltac:(lia) eq_refl) as K6.
  pose proof (eqb_key 3 "AST" 7 ltac:(lia) eq_refl) as K7.
  pose proof (eqb_key 3 "AIR" 8 ltac:(lia) eq_refl) as K8.
  unfold identify.
  destruct (any_eq (py_prefix 2 name) _) eqn:T1;
    [specialize (K1 eq_refl) | clear K1];
  (destruct (any_eq (py_prefix 3 name) _) eqn:T2;
    [specialize (K2 eq_refl) | clear K2]);
  (destruct (any_eq (py_prefix 4 name) _) eqn:T3;
    [specialize (K3 eq_refl) | clear K3]);
  (destruct (String.eqb (py_prefix 5 name) "CONUS") eqn:T4;
    [specialize (K4 eq_refl) | clear K4]);
  (destruct (String.eqb (py_prefix 6 name) "Alaska") eqn:T5;
    [specialize (K5 eq_refl) | clear K5]);
  (destruct (String.eqb (py_prefix 6 name) "AMSR_E") eqn:T6;
    [specialize (K6 eq_refl) | clear K6]);
  (destruct (String.eqb (py_prefix 3 name) "AST") eqn:T7;
    [specialize (K7 eq_refl) | clear K7]);
  (destruct (String.eqb (py_prefix 3 name) "AIR") eqn:T8;
    [specialize (K8 eq_refl) | clear K8]);
  try congruence;
  repeat split; try discriminate; try reflexivity; try congruence;
  intros Hk; destruct Hk as (?&?&?&?&?&?&?&?); congruence.
Qed.

End IdentifyTests.

(** ** More on [many_stats] *)





Lemma mask_raster_dims (low high : option Q) (g : grid) (NoData : Q) :
  length (mask_raster low high g NoData) = nrows g
  ∧ match mask_raster low high g NoData with
    | [] => 0%nat
    | row :: _ => length row
    end = ncols g.
Proof.
  unfold mask_raster, set_nan, nrows, ncols.
  destruct low, high; rewrite ?map_map, length_map;
    (split; [reflexivity|]); destruct g as [|row rest]; simpl;
    rewrite ?length_map; reflexivity.
Qed.

Lemma set_layer_result (xs ys : nat) (layer : nan_grid) :
  (∃ l, set_layer xs ys layer = Ok l) ∨ set_layer xs ys layer = Raise ValueError.
Proof. unfold set_layer. destruct (_ && _); eauto. Qed.

Lemma fill_rast_3d_result (xs ys : nat) (low high : option Q) (rasters : list (grid * Q)) :
  (∃ l, fill_rast_3d xs ys low high rasters = Ok l)
  ∨ fill_rast_3d xs ys low high rasters = Raise ValueError.
Proof.
  induction rasters as [|[g nd] rest IH]; simpl; [eauto|].
  destruct (set_layer_result xs ys (mask_raster low high g nd)) as [[l ->]| ->];
    simpl; [|auto].
  destruct IH as [[ls ->]| ->]; simpl; eauto.
Qed.

(** X20: a raster that does not fit the first raster's shape (its number
    of rows, or of columns, is neither the first raster's nor 1) makes
    [many_stats] fail with ValueError when it is put into the 3-D array,
    wherever it stands in the list. *)
Theorem many_stats_shape_mismatch (rasters : list (grid * Q))
    (low_thresh high_thresh : option Q) (first odd : grid) (nd_first nd_odd : Q) :
  head rasters = Some (first, nd_first) → In (odd, nd_odd) rasters →
  (nrows odd ≠ nrows first ∧ nrows odd ≠ 1%nat)
  ∨ (ncols odd ≠ ncols first ∧ ncols odd ≠ 1%nat) →
  many_stats rasters low_thresh high_thresh = Raise ValueError.
Proof.
  intros Hhead Hin Hodd.
  destruct rasters as [|[g0 nd0] rest]; [discriminate|].
  injection Hhead as -> ->. unfold many_stats.
  assert (Hfill : ∀ l, In (odd, nd_odd) l →
            fill_rast_3d (nrows first) (ncols first) low_thresh high_thresh l
            = Raise ValueError).
  { intros l. induction l as [|[g nd] l IH]; intros Hl; [contradiction|].
    simpl.
    destruct Hl as [Heq|Hl].
    - injection Heq as -> ->.
      assert (Hbad : set_layer (nrows first) (ncols first)
                       (mask_raster low_thresh high_thresh odd nd_odd) = Raise ValueError).
      { unfold set_layer.
        destruct (mask_raster_dims low_thresh high_thresh odd nd_odd) as [-> ->].
        unfold broadcasts.
        destruct Hodd as [[H1 H2]|[H1 H2]].
        - apply Nat.eqb_neq in H1, H2. rewrite H1, H2. reflexivity.
        - apply Nat.eqb_neq in H1, H2. rewrite H1, H2, andb_false_r. reflexivity. }
      rewrite Hbad. reflexivity.
    - destruct (set_layer_result (nrows first) (ncols first)
                  (mask_raster low_thresh high_thresh g nd)) as [[layer ->]| ->];
        simpl; [|reflexivity].
      rewrite (IH Hl). reflexivity. }
  rewrite (Hfill _ Hin). reflexivity.
Qed.

Lemma many_stats_shape_mismatch_witness :
  many_stats [([[1; 2]; [3; 4]]%Q, 0%Q); ([[1; 2; 3]; [4; 5; 6]]%Q, 0%Q)] None None
  = Raise ValueError.
Proof.
  apply (many_stats_shape_mismatch _ None None [[1; 2]; [3; 4]]%Q
           [[1; 2; 3]; [4; 5; 6]]%Q 0%Q 0%Q).
  - reflexivity.
  - right. left. reflexivity.
  - right. simpl. split; discriminate.
Defined.

(** ** [clip_and_snap]: the end of a run *)


Section EndOfRun.

Context `{Toolkit}.


Lemma length_drop_last4 (s : string) :
  String.length (PyStr.drop_last4 s) = (String.length s - 4)%nat.
Proof.
  unfold PyStr.drop_last4.
  assert (Hsub : ∀ n t, (n ≤ String.length t)%nat → String.length (substring 0 n t) = n).
  { induction n as [|n IH]; intros t Hn.
    - destruct t; reflexivity.
    - destruct t as [|c t]; simpl in *; [lia|]. rewrite IH by lia. reflexivity. }
  apply Hsub. lia.
Qed.

Lemma length_string_app (s t : string) :
  String.length (s +:+ t) = (String.length s + String.length t)%nat.
Proof.
  induction s as [|c s IH]; [reflexivity|].
  change (S (String.length (s +:+ t)) = S (String.length s + String.length t)).
  rewrite IH. reflexivity.
Qed.

Lemma tempout2_differs (tempout : string) : PyStr.drop_last4 tempout +:+ "2.tif" ≠ tempout.
Proof.
  intros Heq. apply (f_equal String.length) in Heq.
  rewrite length_string_app, length_drop_last4 in Heq. simpl in Heq. lia.
Qed.

Lemma load_offsets_tail `{Toolkit} (snap_meta meta : metadata) (raster : grid)
    (w w' : world) (r : result (grid * metadata * Z * Z)) :
  (do (xoffset, yoffset) <- lift (offsets snap_meta meta) ;;
   ret (raster, meta, xoffset, yoffset))%py w = (r, w') → w' = w.
Proof.
  unfold bind, lift, ret. destruct (offsets snap_meta meta) as [[xo yo]|e]; intros [= _ <-]; reflexivity.
Qed.

Lemma first_clip_leaves_file (snap_meta : metadata) (rastname tempout : string)
    (w w' : world) (out : grid * metadata * Z * Z) :
  first_clip snap_meta rastname tempout w = (Ok out, w') → isfile w' tempout = true.
Proof.
  unfold first_clip. intros Hrun. step_ok Hrun.
  apply bind_inv in Hrun as [(am & wm & Hnum & Hrun) | (e & _ & Hbad)]; [|discriminate Hbad].
  destruct am as [raster meta].
  pose proof (to_numpy_world _ _ _ _ Hnum) as Hwm.
  apply to_numpy_file in Hnum as (f & Hf & _).
  apply load_offsets_tail in Hrun. subst.
  unfold isfile. rewrite Hf. reflexivity.
Qed.

(** X22: when the paste fails after the clipping went through,
    [clip_and_snap] ends with the paste's exception in the world the
    clipping left: nothing is saved, the temporary directory is not
    removed, and the clipped raster is still on disk in it. *)
Theorem clip_and_snap_leaves_temp (snap_raster rastname outname : string)
    (numtype : str_or_false) (NoData : option Q) (w w1 : world)
    (g0 g1 raster : grid) (snap_meta meta0 meta : metadata) (xoffset yoffset : Z)
    (e : exn) :
  let tempdir := path_join (path_split outname).1 "temp" in
  let tempout := path_join tempdir (path_split outname).2 in
  to_numpy snap_raster w = (Ok (g0, snap_meta), w) →
  to_numpy rastname w = (Ok (g1, meta0), w) →
  load_clipped snap_meta rastname tempout (set_snapRaster snap_raster w)
    = (Ok (raster, meta, xoffset, yoffset), w1) →
  paste snap_meta (move_origin snap_meta meta) raster xoffset yoffset = Raise e →
  clip_and_snap snap_raster rastname outname numtype NoData w = (Raise e, w1)
  ∧ isfile w1 tempout = true
  ∧ ∀ p, Save_call p ∈ calls w1 → Save_call p ∈ calls w.
Proof.
  intros tempdir tempout Hsnap Hrast Hload Hpaste.
  split; [|split].
  - rewrite (clip_and_snap_unfold _ _ _ _ _ _ _ _ _ _ Hsnap Hrast).
    fold tempdir tempout. unfold bind at 1. rewrite Hload.
    apply plop_raises. exact Hpaste.
  - unfold load_clipped in Hload. step_ok Hload.
    destruct a as [[[raster1 meta1] xo1] yo1].
    pose proof (first_clip_leaves_file _ _ _ _ _ _ Hm) as Hfile.
    destruct (exceeds meta1 snap_meta).
    + apply second_clip_run in Hload as (_ & [_ Htouch] & _).
      unfold isfile in *. rewrite Htouch; [exact Hfile|].
      apply tempout2_differs.
    + inversion Hload; subst. exact Hfile.
  - destruct (load_clipped_run _ _ _ _ _ _ Hload) as ((first & extra & Hc & Hf & He) & _).
    cbn [calls set_snapRaster] in Hc. rewrite Hc. intros p Hp.
    apply elem_of_app in Hp as [Hp | Hp]; [exact Hp|]. exfalso.
    apply elem_of_app in Hp as [Hp | Hp].
    + destruct Hf as [-> | ->]; repeat (apply elem_of_cons in Hp as [Hp | Hp]; [discriminate Hp|]);
        apply elem_of_nil in Hp; exact Hp.
    + destruct He as [-> | ->]; repeat (apply elem_of_cons in Hp as [Hp | Hp]; [discriminate Hp|]);
        apply elem_of_nil in Hp; exact Hp.
Qed.

End EndOfRun.

(** ** Runs on the sample disk *)


Lemma enf_rastlist_rasters_witness :
  let w := Sample.disk [("a.tif", Sample.raster [[1; 2]]%Q 1 1 0 0 (-9999));
                        ("notes.txt", Sample.raster [[0]]%Q 1 1 0 0 0)] in
  enf_rastlist ["a.tif"; "notes.txt"; "gone.tif"] w = (Ok ["a.tif"], w)
  ∧ ∃ cells meta, to_numpy "a.tif" w = (Ok (cells, meta), w).
Proof.
  intros w.
  destruct (enf_rastlist_rasters ["a.tif"; "notes.txt"; "gone.tif"] w)
    as (rasters & Hrun & Hfilter & _ & Hload).
  assert (Hr : rasters = ["a.tif"]) by (rewrite Hfilter; vm_compute; reflexivity).
  subst rasters. rewrite Hr in Hrun, Hload.
  split; [exact Hrun|]. apply Hload. left. reflexivity.
Defined.

Lemma stack_coincident_witness :
  let w := Sample.disk [("a.tif", Sample.raster [[1; 2]; [3; 4]]%Q 1 1 0 0 (-9999));
                        ("b.tif", Sample.raster [[5; 6]; [7; 8]]%Q 1 1 0 0 (-9999))] in
  ∃ layers meta,
    stack ["a.tif"; "b.tif"] w = (Ok (layers, meta), w)
    ∧ Forall2 (fun path layer => ∃ f, files w !! path = Some f ∧ rf_cells f = layer)
        ["a.tif"; "b.tif"] layers
    ∧ ∃ p cells, last ["a.tif"; "b.tif"] = Some p ∧ to_numpy p w = (Ok (cells, meta), w).
Proof.
  intros w.
  apply (stack_coincident w 2 2 ["a.tif"; "b.tif"]).
  - discriminate.
  - lia.
  - repeat constructor; eexists; (split; [vm_compute; reflexivity|]); repeat constructor.
Defined.

Lemma stack_reads_only_witness :
  let w := Sample.disk [("b.tif", Sample.raster [[5; 6]; [7; 8]]%Q 1 1 0 0 (-9999))] in
  stack ["a.txt"; "b.tif"] w = (Raise UnboundLocalError, w)
  ∧ stack [] w = (Raise UnboundLocalError, w).
Proof.
  intros w.
  destruct (stack ["a.txt"; "b.tif"] w) as [r w'] eqn:Hrun.
  destruct (stack_reads_only ["a.txt"; "b.tif"] w w' r Hrun)
    as (-> & _ & Hfirst).
  rewrite (Hfirst "a.txt" ["b.tif"] eq_refl) by (vm_compute; reflexivity).
  split; reflexivity.
Defined.

Lemma set_range_null_never_saves_witness :
  let w := Sample.disk [("a.tif", Sample.raster [[1; 2]; [3; 4]]%Q 1 1 0 0 (-9999))] in
  set_range_null (fun _ _ => ret tt) ["a.tif"] (Some 3%Q) None (-9999) w
  = (Raise AttributeError, w).
Proof.
  intros w.
  destruct (set_range_null_never_saves (fun _ _ => ret tt)
              ["a.tif"] (Some 3%Q) None (-9999) w) as (r & Hrun & _ & Hstop).
  rewrite Hrun. f_equal.
  destruct Hstop as [Hr | (_ & _ & Hbelow)].
  - vm_compute. discriminate.
  - exact Hr.
  - discriminate Hbelow.
Defined.

Lemma clip_to_shape_never_clips_witness :
  let w := Sample.disk [("a.tif", Sample.raster [[1; 2]; [3; 4]]%Q 1 1 0 0 (-9999))] in
  clip_to_shape (fun _ _ => true) (fun _ => ret tt) (fun _ _ _ => ret tt) (fun _ _ => ret tt)
    ["a.tif"] "field.shp" (PyStr "out") w
  = (Raise AttributeError, w).
Proof.
  intros w.
  destruct (clip_to_shape_never_clips (fun _ _ => true) (fun _ => ret tt)
              (fun _ _ _ => ret tt) (fun _ _ => ret tt) ["a.tif"] "field.shp" (PyStr "out") w)
    as (r & Hrun & _ & Hstop).
  destruct (Hstop eq_refl) as [_ Hraise].
  rewrite Hrun, Hraise; [reflexivity|]. vm_compute. discriminate.
Defined.

Lemma spatially_match_never_aligns_witness :
  let w := Sample.disk [("ref.tif", Sample.raster [[7; 7]; [7; 7]]%Q 1 1 0 0 (-9999));
                        ("a.tif", Sample.raster [[1; 2]; [3; 4]]%Q 1 1 0 0 (-9999))] in
  ∃ r w',
    spatially_match "ref.tif" ["a.tif"] "out" PyFalse None PyFalse w
    = (r, w')
    ∧ r ≠ Ok tt
    ∧ ∃ l, calls w' = calls w ++ l ∧ forallb (fun c => negb (clips_or_saves c)) l = true.
Proof.
  intros w.
  destruct (spatially_match "ref.tif" ["a.tif"] "out" PyFalse None
              PyFalse w) as [r w'] eqn:Hrun.
  exists r, w'. split; [reflexivity|].
  destruct (spatially_match_never_aligns "ref.tif" ["a.tif"] "out"
              PyFalse None PyFalse w w' r Hrun) as [Hquiet Hstop].
  split; [|exact Hquiet].
  intros Hr. specialize (Hstop Hr). vm_compute in Hstop. discriminate Hstop.
Defined.



Lemma clip_and_snap_leaves_temp_witness :
  let w := Sample.disk [("ref.tif", Sample.raster (replicate 3 (replicate 3 7%Q))
                                      1 1 0 0 (-9999));
                        ("in.tif", Sample.raster [[1; 2]; [3; 4]]%Q 1 1 2 0 (-9999))] in
  ∃ w1,
    clip_and_snap "ref.tif" "in.tif" "out/in_matched.tif" PyFalse None w
    = (Raise ValueError, w1)
    ∧ isfile w1 "out/temp/in_matched.tif" = true
    ∧ ∀ p, Save_call p ∉ calls w1.
Proof.
  intros w.
  pose (snap_meta := {| Xsize := 3; Ysize := 3; cellWidth := 1; cellHeight := 1;
                        Xmin := 0; Ymin := 0; projection := "UTM";
                        NoData_Value := -9999 |}).
  pose (meta := {| Xsize := 2; Ysize := 2; cellWidth := 1; cellHeight := 1;
                   Xmin := 2; Ymin := 0; projection := "UTM"; NoData_Value := -9999 |}).
  exists (load_clipped snap_meta "in.tif" "out/temp/in_matched.tif"
            (set_snapRaster "ref.tif" w)).2.
  destruct (clip_and_snap_leaves_temp "ref.tif" "in.tif" "out/in_matched.tif" PyFalse
              None w
              (load_clipped snap_meta "in.tif" "out/temp/in_matched.tif"
                 (set_snapRaster "ref.tif" w)).2
              (replicate 3 (replicate 3 7%Q)) [[1; 2]; [3; 4]]%Q [[1; 2]; [3; 4]]%Q
              snap_meta meta meta 2%Z 0%Z ValueError)
    as (Hrun & Hfile & Hsave).
  - vm_compute; reflexivity.
  - vm_compute; reflexivity.
  - vm_compute; reflexivity.
  - vm_compute; reflexivity.
  - split; [exact Hrun|]. split; [exact Hfile|].
    intros p Hp. apply Hsave in Hp. apply elem_of_nil in Hp. exact Hp.
Defined.

(** ** [grab_info]: the attributes read off the name *)






Lemma py_item_ok (i : nat) (l : list string) :
  (∃ x, py_item i l = Ok x) ↔ (i < length l)%nat.
Proof.
  unfold py_item. split.
  - intros [x Hx]. destruct (l !! i) eqn:Hl; [|discriminate].
    apply lookup_lt_Some in Hl. exact Hl.
  - intros Hi. apply lookup_lt_is_Some_2 in Hi as [x ->]. eauto.
Qed.













Lemma count_char_0 (sep : ascii) (s : string) :
  count_char sep s = 0%nat ↔ has_char sep s = false.
Proof.
  induction s as [|c s IH]; [split; reflexivity|].
  cbn [count_char has_char]. destruct (Ascii.eqb c sep); simpl; [split; discriminate|].
  exact IH.
Qed.


Section GrabInfoFacts.

Context `{Toolkit}.

(** X23: [grab_info] returns [False] before it reads anything off the
    name exactly when the data type, the one given or else the one
    [identify] finds, is none of MODIS, Landsat, WELD_CONUS, WELD_AK and
    ASTER; so it does for every file that [identify] calls TRMM, AMSR_E or
    AIRS, or does not recognise. *)
Theorem grab_info_unsupported (filepath : string) (data_type : str_or_false) :
  let name := (path_split filepath).2 in
  let type := if truthy data_type then data_type else identify name in
  (grab_info_attributes filepath data_type = Ok ReturnsFalse
   ↔ type ∉ [PyStr "MODIS"; PyStr "Landsat"; PyStr "WELD_CONUS"; PyStr "WELD_AK";
             PyStr "ASTER"])
  ∧ (truthy data_type = false →
     identify name ∈ [PyStr "TRMM"; PyStr "AMSR_E"; PyStr "AIRS"; PyFalse] →
     grab_info_attributes filepath data_type = Ok ReturnsFalse).
Proof.
  intros name type.
  assert (Hsupp : ∀ t, is_type type t = true ↔ type = PyStr t).
  { intros t. destruct type as [|s]; simpl; [split; discriminate|].
    rewrite String.eqb_eq. split; [intros ->; reflexivity | intros [= ->]; reflexivity]. }
  assert (Hno : ∀ (r : result (list (string * string))),
            rbind r (fun info => Ok (Attributes info)) ≠ Ok ReturnsFalse).
  { intros [info|e]; discriminate. }
  assert (Hiff : grab_info_attributes filepath data_type = Ok ReturnsFalse
                 ↔ type ∉ [PyStr "MODIS"; PyStr "Landsat"; PyStr "WELD_CONUS";
                           PyStr "WELD_AK"; PyStr "ASTER"]).
  { unfold grab_info_attributes. fold name. fold type.
    destruct (is_type type "MODIS") eqn:Hm.
    { apply Hsupp in Hm. split.
      - intros Hrun. exfalso.
        destruct (modis_attributes name) as [info|e]; discriminate Hrun.
      - intros Hnot. exfalso. apply Hnot. rewrite Hm. repeat constructor. }
    cbn [rbind].
    destruct (is_type type "Landsat") eqn:Hl.
    { apply Hsupp in Hl. split; [intros Hrun; exfalso; exact (Hno _ Hrun)|].
      intros Hnot. exfalso. apply Hnot. rewrite Hl. repeat constructor. }
    destruct (is_type type "WELD_CONUS") eqn:Hwc.
    { apply Hsupp in Hwc. split; [intros Hrun; exfalso; exact (Hno _ Hrun)|].
      intros Hnot. exfalso. apply Hnot. rewrite Hwc. repeat constructor. }
    destruct (is_type type "WELD_AK") eqn:Hwa.
    { apply Hsupp in Hwa. split; [intros Hrun; exfalso; exact (Hno _ Hrun)|].
      intros Hnot. exfalso. apply Hnot. rewrite Hwa. repeat constructor. }
    cbn [orb].
    destruct (is_type type "ASTER") eqn:Ha.
    { apply Hsupp in Ha. split; [intros Hrun; exfalso; exact (Hno _ Hrun)|].
      intros Hnot. exfalso. apply Hnot. rewrite Ha. repeat constructor. }
    split.
    - intros _ Hin.
      repeat (apply elem_of_cons in Hin as [Hin | Hin];
              [apply Hsupp in Hin; congruence|]).
      apply elem_of_nil in Hin. exact Hin.
    - intros _. destruct (is_type type "TRMM"), (is_type type "AMSR_E"),
        (is_type type "AIRS"); reflexivity. }
  split; [exact Hiff|].
  intros Hdt Hid. apply Hiff. unfold type. rewrite Hdt.
  intros Hin.
  repeat (apply elem_of_cons in Hid as [Hid | Hid];
          [rewrite Hid in Hin;
           repeat (apply elem_of_cons in Hin as [Hin | Hin]; [discriminate Hin|]);
           apply elem_of_nil in Hin; exact Hin|]).
  apply elem_of_nil in Hid. exact Hid.
Qed.



End GrabInfoFacts.

Lemma grab_info_unsupported_witness :
  grab_info_attributes "data/3B42.20140101.7.nc" PyFalse = Ok ReturnsFalse
  ∧ grab_info_attributes "data/LC80140322014139LGN00_B1.tif" (PyStr "AIRS") = Ok ReturnsFalse.
Proof.
  split.
  - destruct (grab_info_unsupported "data/3B42.20140101.7.nc" PyFalse) as [_ Hname].
    apply Hname; [reflexivity|]. vm_compute. repeat constructor.
  - destruct (grab_info_unsupported "data/LC80140322014139LGN00_B1.tif" (PyStr "AIRS"))
      as [Htype _].
    apply Htype. intros Hin. vm_compute in Hin.
    repeat (apply elem_of_cons in Hin as [Hin | Hin]; [discriminate Hin|]).
    apply elem_of_nil in Hin. exact Hin.
Defined.


